(** * arxiv_alert: the keyword matcher and the sent-papers history

    A shallow embedding of [search.py]: [search_papers], [load_sent_papers]
    and [save_sent_papers], with the properties its specification states
    about them; and of the code around it: the papers built from the feed
    and the date filter of [arxiv_api.py], and the part of [main] that
    searches, notifies and records.

    Python strings are modelled as [string] over the code points 0..255
    (Latin-1).  On that range [str.lower] acts on each character by itself,
    which is what [lower] below does.  The module [Unicode] has the same
    search over text of any code points, with [str.lower] as it is there,
    where the capital sigma lowers by its context; the statements about
    case are made there. *)

From Stdlib Require Import Ascii NArith.
From Stdlib Require String.
From stdpp Require Import base decidable option list strings gmap pretty.

(** ** Strings: [str.lower] and the [in] operator *)

Definition is_upper (c : ascii) : bool :=
  let n := N_of_ascii c in
  ((65 <=? n) && (n <=? 90) || (192 <=? n) && (n <=? 214)
   || (216 <=? n) && (n <=? 222))%N.

(** [chr(ord(c) + 32)] for the upper-case letters A-Z, U+00C0-U+00D6 and
    U+00D8-U+00DE, every other character unchanged. *)
Definition lower_char (c : ascii) : ascii :=
  if is_upper c then ascii_of_N (N_of_ascii c + 32) else c.

Fixpoint lower (s : string) : string :=
  match s with
  | EmptyString => EmptyString
  | String c s' => String (lower_char c) (lower s')
  end.

(** [k in s] on strings: [k] starts at some position of [s]. *)
Fixpoint contains (k s : string) : bool :=
  String.prefix k s ||
  match s with
  | EmptyString => false
  | String _ s' => contains k s'
  end.

(** The mathematical reading of [in]: [k] occurs inside [s]. *)
Definition is_substring (k s : string) : Prop :=
  ∃ u v, s = u +:+ k +:+ v.

(** Two characters that are the same letter, in whatever case. *)
Definition same_letter (a b : ascii) : bool :=
  Ascii.eqb a b
  || is_upper a && Ascii.eqb (lower_char a) b
  || is_upper b && Ascii.eqb (lower_char b) a.

(** Two strings that differ only in the case of their letters. *)
Fixpoint case_variant (s t : string) : bool :=
  match s, t with
  | EmptyString, EmptyString => true
  | String a s', String b t' => same_letter a b && case_variant s' t'
  | _, _ => false
  end.

(** ** Papers *)

(** The dictionary built by [fetch_papers] and [fetch_papers_from_rss]. *)
Record Paper := {
  paper_id : string;
  paper_title : string;
  paper_abstract : string;
  paper_authors : list string;
  paper_link : string;
  paper_published : string;
  paper_updated : string;
  paper_categories : list string
}.

Global Instance Paper_eq_dec : EqDecision Paper.
Proof. solve_decision. Defined.

(** ** The logger *)

Inductive level := INFO | ERROR.

Record log_record := { levelname : level; message : string }.

(** ** [search_papers] *)

(** What a call can reach besides its immutable arguments: the set object the
    caller passes as [sent_papers] ([None] when the argument is left out) and
    the records emitted on the module logger. *)
Record World := {
  sent_papers : option (gset string);
  log : list log_record
}.

(** Lines 86-90: the text that is searched. *)
Definition search_text (search_title search_abstract : bool) (paper : Paper)
  : string :=
  let search_text := "" in
  let search_text :=
    if search_title then search_text +:+ lower (paper_title paper) +:+ " "
    else search_text in
  let search_text :=
    if search_abstract then search_text +:+ lower (paper_abstract paper)
    else search_text in
  search_text.

(** Lines 95-100: the loop over one group, which stops at the first keyword
    that is missing; the value is [all_keywords_match] after the loop. *)
Fixpoint all_keywords_match (search_text : string) (keyword_group : list string)
  : bool :=
  match keyword_group with
  | [] => true
  | keyword :: rest =>
      if negb (contains (lower keyword) search_text) then false
      else all_keywords_match search_text rest
  end.

(** Lines 93-105: the loop over the groups, which stops at the first group
    that matches; the value tells whether the paper was appended. *)
Fixpoint some_group_matches (search_text : string)
    (keyword_groups : list (list string)) : bool :=
  match keyword_groups with
  | [] => false
  | keyword_group :: rest =>
      if all_keywords_match search_text keyword_group then true
      else some_group_matches search_text rest
  end.

(** Lines 76-105: the loop over the papers, threading [matched_papers]. *)
Fixpoint search_loop (keyword_groups : list (list string))
    (search_title search_abstract : bool) (sent : gset string)
    (papers : list Paper) (matched_papers : list Paper) : list Paper :=
  match papers with
  | [] => matched_papers
  | paper :: rest =>
      let continue := search_loop keyword_groups search_title search_abstract
                        sent rest in
      if bool_decide (paper_id paper ∈ sent) then continue matched_papers
      else if negb search_title && negb search_abstract then
        continue matched_papers
      else
        let text := search_text search_title search_abstract paper in
        if some_group_matches text keyword_groups
        then continue (matched_papers ++ [paper])
        else continue matched_papers
  end.

Definition found_message (n : nat) : string :=
  "Found " +:+ pretty n +:+ " papers matching the search criteria".

(** Lines 55-108.  The flags are passed by the caller (the defaults of the
    signature are [True]); the set is read from the world. *)
Definition search_papers (papers : list Paper)
    (keyword_groups : list (list string))
    (search_title search_abstract : bool) (w : World)
  : list Paper * World :=
  (* if sent_papers is None: sent_papers = set()   -- a local rebinding *)
  let sent := default ∅ (sent_papers w) in
  let matched_papers :=
    search_loop keyword_groups search_title search_abstract sent papers [] in
  (matched_papers,
   {| sent_papers := sent_papers w;
      log := log w ++ [{| levelname := INFO;
                          message := found_message (length matched_papers) |}]
   |}).

(** The set a call deduplicates against. *)
Definition seen (w : World) : gset string := default ∅ (sent_papers w).

(** ** The history file: values read from it *)

Inductive exn :=
  | AttributeError | TypeError | UnicodeDecodeError
  | OSError          (* with its subclasses; IOError is another name of it *)
  | ValueError | OverflowError.

Global Instance exn_eq_dec : EqDecision exn.
Proof. solve_decision. Defined.

Inductive result (A : Type) :=
  | Returns (a : A)
  | Raises (e : exn).
Arguments Returns {A} a.
Arguments Raises {A} e.

(** What [json.load] hands back.  Numbers are the integers; an object keeps
    the members of the document in their order. *)
#[warnings="-register-all"]
Inductive json :=
  | JNull
  | JBool (b : bool)
  | JInt (n : Z)
  | JString (s : string)
  | JArray (items : list json)
  | JObject (members : list (string * json)).

(** The members of a set read from the file, up to Python's [==], under which
    [True] is [1] and [False] is [0]. *)
Inductive pykey :=
  | KNone
  | KInt (n : Z)
  | KStr (s : string).

Global Instance pykey_eq_dec : EqDecision pykey.
Proof. solve_decision. Defined.

Global Instance pykey_countable : Countable pykey :=
  inj_countable'
    (λ k, match k with
          | KNone => inl ()
          | KInt n => inr (inl n)
          | KStr s => inr (inr s)
          end)
    (λ x, match x with
          | inl _ => KNone
          | inr (inl n) => KInt n
          | inr (inr s) => KStr s
          end)
    (λ k, match k with KNone | KInt _ | KStr _ => eq_refl end).

(** [d.get(key, default)] on the dictionary made from [members]: a later
    member replaces an earlier one with the same name. *)
Fixpoint dict_get (key : string) (members : list (string * json))
    (default : json) : json :=
  match members with
  | [] => default
  | (k, v) :: rest =>
      dict_get key rest (if decide (k = key) then v else default)
  end.

(** [hash(v)]: lists and dictionaries are unhashable. *)
Definition hashable (v : json) : option pykey :=
  match v with
  | JNull => Some KNone
  | JBool b => Some (KInt (if b then 1 else 0))
  | JInt n => Some (KInt n)
  | JString s => Some (KStr s)
  | JArray _ | JObject _ => None
  end.

Fixpoint set_of_items (items : list json) : result (gset pykey) :=
  match items with
  | [] => Returns ∅
  | v :: rest =>
      match hashable v with
      | None => Raises TypeError
      | Some k =>
          match set_of_items rest with
          | Returns s => Returns ({[k]} ∪ s)
          | Raises e => Raises e
          end
      end
  end.

Fixpoint chars (s : string) : list string :=
  match s with
  | EmptyString => []
  | String c s' => String c EmptyString :: chars s'
  end.

(** [set(v)]: the elements of a list, the characters of a string, the keys of
    a dictionary; anything else is not iterable. *)
Definition py_set (v : json) : result (gset pykey) :=
  match v with
  | JArray items => set_of_items items
  | JString s => Returns (list_to_set (KStr <$> chars s))
  | JObject members => Returns (list_to_set (KStr <$> members.*1))
  | JNull | JBool _ | JInt _ => Raises TypeError
  end.

(** What is found at a path when it is opened for reading and parsed; the
    strings are the texts of the errors. *)
Inductive backing_store :=
  | Absent                    (* os.path.exists is False *)
  | Unreadable (e : string)   (* open or read raises IOError *)
  | NotText (e : string)      (* decoding raises UnicodeDecodeError *)
  | NotJson (e : string)      (* json.load raises JSONDecodeError *)
  | Json (doc : json).        (* json.load returns doc *)

Definition error (msg : string) : log_record :=
  {| levelname := ERROR; message := msg |}.

Definition load_sent_papers (fs : string → backing_store)
    (history_file : string) (log : list log_record)
  : result (gset pykey) * list log_record :=
  match fs history_file with
  | Absent => (Returns ∅, log)
  | Unreadable e | NotJson e =>
      (Returns ∅, log ++ [error ("Error loading history file: " +:+ e)])
  | NotText _ => (Raises UnicodeDecodeError, log)
  | Json history =>
      match history with
      | JObject members =>
          (py_set (dict_get "sent_papers" members (JArray [])), log)
      | _ => (Raises AttributeError, log)
      end
  end.

(** ** The history file: writing it *)

Definition dquote : ascii := "034"%char.
Definition newline : ascii := "010"%char.

Definition hex_digit (n : N) : ascii :=
  if (n <? 10)%N then ascii_of_N (48 + n) else ascii_of_N (87 + n).

(** [json.dumps] of one character: printable ASCII as it is, the quote and
    the backslash escaped, the short escapes, and [\u00xx] for the rest. *)
Definition encode_char (c : ascii) : string :=
  let n := N_of_ascii c in
  if Ascii.eqb c dquote then String "\" (String dquote "")
  else if Ascii.eqb c "\" then "\\"
  else if (32 <=? n)%N && (n <=? 126)%N then String c ""
  else if (n =? 8)%N then "\b"
  else if (n =? 12)%N then "\f"
  else if (n =? 10)%N then "\n"
  else if (n =? 13)%N then "\r"
  else if (n =? 9)%N then "\t"
  else "\u00" +:+ String (hex_digit (n / 16)) (String (hex_digit (n mod 16)) "").

Fixpoint encode_chars (s : string) : string :=
  match s with
  | EmptyString => ""
  | String c s' => encode_char c +:+ encode_chars s'
  end.

Definition encode_string (s : string) : string :=
  String dquote (encode_chars s) +:+ String dquote "".

Definition nl (indent : string) : string := String newline indent.

Fixpoint encode_items (items : list string) : string :=
  match items with
  | [] => ""
  | [x] => encode_string x
  | x :: rest => encode_string x +:+ "," +:+ nl "    " +:+ encode_items rest
  end.

Definition encode_list (items : list string) : string :=
  match items with
  | [] => "[]"
  | _ => "[" +:+ nl "    " +:+ encode_items items +:+ nl "  " +:+ "]"
  end.

(** [json.dump(history, f, indent=2)] for the dictionary of lines 45-48. *)
Definition dump_history (sent : list string) (last_updated : string) : string :=
  "{" +:+ nl "  " +:+ encode_string "sent_papers" +:+ ": " +:+ encode_list sent
  +:+ "," +:+ nl "  " +:+ encode_string "last_updated" +:+ ": "
  +:+ encode_string last_updated +:+ nl "" +:+ "}".

Fixpoint string_take (n : nat) (s : string) : string :=
  match n, s with
  | S n', String c s' => String c (string_take n' s')
  | _, _ => ""
  end.

(** What the interpreter and the operating system answer during one call
    of [save_sent_papers].  An error is the class of the exception and its
    text: [os.makedirs] and [open] raise OSError or one of its subclasses,
    or another exception such as ValueError for a path that holds a NUL
    character. *)
Record save_env := {
  history_dir : string;                 (* os.path.dirname(history_file) *)
  now : string;                         (* datetime.now().isoformat() *)
  set_list : gset string → list string; (* list(s): the members of s in the
                                           order of the process's hashing *)
  makedirs_error : option (exn * string);  (* os.makedirs raises *)
  open_error : option (exn * string);      (* open(.., 'w') raises *)
  write_error : option (nat * string)   (* the device takes that many
                                           characters, then IOError *)
}.

Record disk := {
  dir_exists : bool;          (* os.path.exists(history_dir) *)
  content : option string     (* the text of history_file, if it exists *)
}.

Definition save_error (e : string) : log_record :=
  error ("Error saving history file: " +:+ e).

(** Lines 44-53, once the directory is there.  [except IOError] catches
    OSError and nothing else. *)
Definition write_history (env : save_env) (sent_papers : gset string)
    (d : disk) (log : list log_record)
  : result unit * disk * list log_record :=
  let history := dump_history (set_list env sent_papers) (now env) in
  match open_error env with
  | Some (OSError, e) => (Returns (), d, log ++ [save_error e])
  | Some (kind, _) => (Raises kind, d, log)
  | None =>
      (* the file is opened for writing: whatever it held is gone *)
      match write_error env with
      | Some (n, e) =>
          if n <? String.length history then
            (Returns (),
             {| dir_exists := dir_exists d;
                content := Some (string_take n history) |},
             log ++ [save_error e])
          else
            (Returns (),
             {| dir_exists := dir_exists d; content := Some history |}, log)
      | None =>
          (Returns (),
           {| dir_exists := dir_exists d; content := Some history |}, log)
      end
  end.

Definition save_sent_papers (env : save_env) (sent_papers : gset string)
    (d : disk) (log : list log_record)
  : result unit * disk * list log_record :=
  if bool_decide (history_dir env ≠ "") && negb (dir_exists d) then
    match makedirs_error env with
    | Some (kind, _) => (Raises kind, d, log)
    | None =>
        write_history env sent_papers
          {| dir_exists := true; content := content d |} log
    end
  else write_history env sent_papers d log.

(** The text of the exception that leaves [save_sent_papers], when one
    does. *)
Definition raised_text (env : save_env) (d : disk) : string :=
  if bool_decide (history_dir env ≠ "") && negb (dir_exists d) then
    match makedirs_error env with
    | Some (_, e) => e
    | None => from_option snd "" (open_error env)
    end
  else from_option snd "" (open_error env).

(** [list(s)] yields the members of [s], each once, in some order. *)
Definition lists_members (env : save_env) (s : gset string) : Prop :=
  set_list env s ≡ₚ elements s.

(** ** Text of any code points *)

(** The same search over strings of arbitrary code points, with
    [str.lower] as CPython 3.11 has it (Unicode 14.0): outside the Latin-1
    range lower-casing is no longer a map on characters.  U+0130 lowers to
    two code points, and the capital sigma U+03A3 to the final or the
    medial small sigma by the characters around it. *)
Module Unicode.

Definition text := list N.

(** The simple lower-case mapping, as rules (first, last, step, target): the
    code points first, first + step, ..., last map to target,
    target + step, ... *)
Definition lower_rules : list (N * N * N * N) :=
  [
    (65, 90, 1, 97); (192, 214, 1, 224); (216, 222, 1, 248);
    (256, 302, 2, 257); (306, 310, 2, 307); (313, 327, 2, 314);
    (330, 374, 2, 331); (376, 376, 1, 255); (377, 381, 2, 378);
    (385, 385, 1, 595); (386, 388, 2, 387); (390, 390, 1, 596);
    (391, 391, 1, 392); (393, 394, 1, 598); (395, 395, 1, 396);
    (398, 398, 1, 477); (399, 399, 1, 601); (400, 400, 1, 603);
    (401, 401, 1, 402); (403, 403, 1, 608); (404, 404, 1, 611);
    (406, 406, 1, 617); (407, 407, 1, 616); (408, 408, 1, 409);
    (412, 412, 1, 623); (413, 413, 1, 626); (415, 415, 1, 629);
    (416, 420, 2, 417); (422, 422, 1, 640); (423, 423, 1, 424);
    (425, 425, 1, 643); (428, 428, 1, 429); (430, 430, 1, 648);
    (431, 431, 1, 432); (433, 434, 1, 650); (435, 437, 2, 436);
    (439, 439, 1, 658); (440, 440, 1, 441); (444, 444, 1, 445);
    (452, 452, 1, 454); (453, 453, 1, 454); (455, 455, 1, 457);
    (456, 456, 1, 457); (458, 458, 1, 460); (459, 475, 2, 460);
    (478, 494, 2, 479); (497, 497, 1, 499); (498, 500, 2, 499);
    (502, 502, 1, 405); (503, 503, 1, 447); (504, 542, 2, 505);
    (544, 544, 1, 414); (546, 562, 2, 547); (570, 570, 1, 11365);
    (571, 571, 1, 572); (573, 573, 1, 410); (574, 574, 1, 11366);
    (577, 577, 1, 578); (579, 579, 1, 384); (580, 580, 1, 649);
    (581, 581, 1, 652); (582, 590, 2, 583); (880, 882, 2, 881);
    (886, 886, 1, 887); (895, 895, 1, 1011); (902, 902, 1, 940);
    (904, 906, 1, 941); (908, 908, 1, 972); (910, 911, 1, 973);
    (913, 929, 1, 945); (931, 939, 1, 963); (975, 975, 1, 983);
    (984, 1006, 2, 985); (1012, 1012, 1, 952); (1015, 1015, 1, 1016);
    (1017, 1017, 1, 1010); (1018, 1018, 1, 1019); (1021, 1023, 1, 891);
    (1024, 1039, 1, 1104); (1040, 1071, 1, 1072); (1120, 1152, 2, 1121);
    (1162, 1214, 2, 1163); (1216, 1216, 1, 1231); (1217, 1229, 2, 1218);
    (1232, 1326, 2, 1233); (1329, 1366, 1, 1377); (4256, 4293, 1, 11520);
    (4295, 4295, 1, 11559); (4301, 4301, 1, 11565); (5024, 5103, 1, 43888);
    (5104, 5109, 1, 5112); (7312, 7354, 1, 4304); (7357, 7359, 1, 4349);
    (7680, 7828, 2, 7681); (7838, 7838, 1, 223); (7840, 7934, 2, 7841);
    (7944, 7951, 1, 7936); (7960, 7965, 1, 7952); (7976, 7983, 1, 7968);
    (7992, 7999, 1, 7984); (8008, 8013, 1, 8000); (8025, 8031, 2, 8017);
    (8040, 8047, 1, 8032); (8072, 8079, 1, 8064); (8088, 8095, 1, 8080);
    (8104, 8111, 1, 8096); (8120, 8121, 1, 8112); (8122, 8123, 1, 8048);
    (8124, 8124, 1, 8115); (8136, 8139, 1, 8050); (8140, 8140, 1, 8131);
    (8152, 8153, 1, 8144); (8154, 8155, 1, 8054); (8168, 8169, 1, 8160);
    (8170, 8171, 1, 8058); (8172, 8172, 1, 8165); (8184, 8185, 1, 8056);
    (8186, 8187, 1, 8060); (8188, 8188, 1, 8179); (8486, 8486, 1, 969);
    (8490, 8490, 1, 107); (8491, 8491, 1, 229); (8498, 8498, 1, 8526);
    (8544, 8559, 1, 8560); (8579, 8579, 1, 8580); (9398, 9423, 1, 9424);
    (11264, 11311, 1, 11312); (11360, 11360, 1, 11361);
    (11362, 11362, 1, 619); (11363, 11363, 1, 7549); (11364, 11364, 1, 637);
    (11367, 11371, 2, 11368); (11373, 11373, 1, 593); (11374, 11374, 1, 625);
    (11375, 11375, 1, 592); (11376, 11376, 1, 594); (11378, 11378, 1, 11379);
    (11381, 11381, 1, 11382); (11390, 11391, 1, 575);
    (11392, 11490, 2, 11393); (11499, 11501, 2, 11500);
    (11506, 11506, 1, 11507); (42560, 42604, 2, 42561);
    (42624, 42650, 2, 42625); (42786, 42798, 2, 42787);
    (42802, 42862, 2, 42803); (42873, 42875, 2, 42874);
    (42877, 42877, 1, 7545); (42878, 42886, 2, 42879);
    (42891, 42891, 1, 42892); (42893, 42893, 1, 613);
    (42896, 42898, 2, 42897); (42902, 42920, 2, 42903);
    (42922, 42922, 1, 614); (42923, 42923, 1, 604); (42924, 42924, 1, 609);
    (42925, 42925, 1, 620); (42926, 42926, 1, 618); (42928, 42928, 1, 670);
    (42929, 42929, 1, 647); (42930, 42930, 1, 669); (42931, 42931, 1, 43859);
    (42932, 42946, 2, 42933); (42948, 42948, 1, 42900);
    (42949, 42949, 1, 642); (42950, 42950, 1, 7566); (42951, 42953, 2, 42952);
    (42960, 42960, 1, 42961); (42966, 42968, 2, 42967);
    (42997, 42997, 1, 42998); (65313, 65338, 1, 65345);
    (66560, 66599, 1, 66600); (66736, 66771, 1, 66776);
    (66928, 66964, 2, 66967); (66929, 66937, 2, 66968);
    (66941, 66953, 2, 66980); (66957, 66961, 2, 66996);
    (66965, 66965, 1, 67004); (68736, 68786, 1, 68800);
    (71840, 71871, 1, 71872); (93760, 93791, 1, 93792);
    (125184, 125217, 1, 125218)
  ]%N.

Definition lower_simple (c : N) : N :=
  match
    List.find (λ '(first, last, step, _),
                 (first <=? c) && (c <=? last)
                 && ((c - first) mod step =? 0))%N lower_rules
  with
  | Some (first, _, _, target) => (target + (c - first))%N
  | None => c
  end.

(** The full mapping: U+0130 lowers to two code points. *)
Definition lower_full (c : N) : text :=
  if (c =? 304)%N then [105; 775]%N else [lower_simple c].

Definition in_ranges (ranges : list (N * N)) (c : N) : bool :=
  existsb (λ '(first, last), (first <=? c) && (c <=? last))%N ranges.

(** The case-ignorable code points, which the context rule skips. *)
Definition is_ignorable : N → bool :=
  in_ranges
    [
    (39, 39); (46, 46); (58, 58); (94, 94); (96, 96); (168, 168); (173, 173);
    (175, 175); (180, 180); (183, 184); (688, 879); (884, 885); (890, 890);
    (900, 901); (903, 903); (1155, 1161); (1369, 1369); (1375, 1375);
    (1425, 1469); (1471, 1471); (1473, 1474); (1476, 1477); (1479, 1479);
    (1524, 1524); (1536, 1541); (1552, 1562); (1564, 1564); (1600, 1600);
    (1611, 1631); (1648, 1648); (1750, 1757); (1759, 1768); (1770, 1773);
    (1807, 1807); (1809, 1809); (1840, 1866); (1958, 1968); (2027, 2037);
    (2042, 2042); (2045, 2045); (2070, 2093); (2137, 2139); (2184, 2184);
    (2192, 2193); (2200, 2207); (2249, 2306); (2362, 2362); (2364, 2364);
    (2369, 2376); (2381, 2381); (2385, 2391); (2402, 2403); (2417, 2417);
    (2433, 2433); (2492, 2492); (2497, 2500); (2509, 2509); (2530, 2531);
    (2558, 2558); (2561, 2562); (2620, 2620); (2625, 2626); (2631, 2632);
    (2635, 2637); (2641, 2641); (2672, 2673); (2677, 2677); (2689, 2690);
    (2748, 2748); (2753, 2757); (2759, 2760); (2765, 2765); (2786, 2787);
    (2810, 2815); (2817, 2817); (2876, 2876); (2879, 2879); (2881, 2884);
    (2893, 2893); (2901, 2902); (2914, 2915); (2946, 2946); (3008, 3008);
    (3021, 3021); (3072, 3072); (3076, 3076); (3132, 3132); (3134, 3136);
    (3142, 3144); (3146, 3149); (3157, 3158); (3170, 3171); (3201, 3201);
    (3260, 3260); (3263, 3263); (3270, 3270); (3276, 3277); (3298, 3299);
    (3328, 3329); (3387, 3388); (3393, 3396); (3405, 3405); (3426, 3427);
    (3457, 3457); (3530, 3530); (3538, 3540); (3542, 3542); (3633, 3633);
    (3636, 3642); (3654, 3662); (3761, 3761); (3764, 3772); (3782, 3782);
    (3784, 3789); (3864, 3865); (3893, 3893); (3895, 3895); (3897, 3897);
    (3953, 3966); (3968, 3972); (3974, 3975); (3981, 3991); (3993, 4028);
    (4038, 4038); (4141, 4144); (4146, 4151); (4153, 4154); (4157, 4158);
    (4184, 4185); (4190, 4192); (4209, 4212); (4226, 4226); (4229, 4230);
    (4237, 4237); (4253, 4253); (4348, 4348); (4957, 4959); (5906, 5908);
    (5938, 5939); (5970, 5971); (6002, 6003); (6068, 6069); (6071, 6077);
    (6086, 6086); (6089, 6099); (6103, 6103); (6109, 6109); (6155, 6159);
    (6211, 6211); (6277, 6278); (6313, 6313); (6432, 6434); (6439, 6440);
    (6450, 6450); (6457, 6459); (6679, 6680); (6683, 6683); (6742, 6742);
    (6744, 6750); (6752, 6752); (6754, 6754); (6757, 6764); (6771, 6780);
    (6783, 6783); (6823, 6823); (6832, 6862); (6912, 6915); (6964, 6964);
    (6966, 6970); (6972, 6972); (6978, 6978); (7019, 7027); (7040, 7041);
    (7074, 7077); (7080, 7081); (7083, 7085); (7142, 7142); (7144, 7145);
    (7149, 7149); (7151, 7153); (7212, 7219); (7222, 7223); (7288, 7293);
    (7376, 7378); (7380, 7392); (7394, 7400); (7405, 7405); (7412, 7412);
    (7416, 7417); (7468, 7530); (7544, 7544); (7579, 7679); (8125, 8125);
    (8127, 8129); (8141, 8143); (8157, 8159); (8173, 8175); (8189, 8190);
    (8203, 8207); (8216, 8217); (8228, 8228); (8231, 8231); (8234, 8238);
    (8288, 8292); (8294, 8303); (8305, 8305); (8319, 8319); (8336, 8348);
    (8400, 8432); (11388, 11389); (11503, 11505); (11631, 11631);
    (11647, 11647); (11744, 11775); (11823, 11823); (12293, 12293);
    (12330, 12333); (12337, 12341); (12347, 12347); (12441, 12446);
    (12540, 12542); (40981, 40981); (42232, 42237); (42508, 42508);
    (42607, 42610); (42612, 42621); (42623, 42623); (42652, 42655);
    (42736, 42737); (42752, 42785); (42864, 42864); (42888, 42890);
    (42994, 42996); (43000, 43001); (43010, 43010); (43014, 43014);
    (43019, 43019); (43045, 43046); (43052, 43052); (43204, 43205);
    (43232, 43249); (43263, 43263); (43302, 43309); (43335, 43345);
    (43392, 43394); (43443, 43443); (43446, 43449); (43452, 43453);
    (43471, 43471); (43493, 43494); (43561, 43566); (43569, 43570);
    (43573, 43574); (43587, 43587); (43596, 43596); (43632, 43632);
    (43644, 43644); (43696, 43696); (43698, 43700); (43703, 43704);
    (43710, 43711); (43713, 43713); (43741, 43741); (43756, 43757);
    (43763, 43764); (43766, 43766); (43867, 43871); (43881, 43883);
    (44005, 44005); (44008, 44008); (44013, 44013); (64286, 64286);
    (64434, 64450); (65024, 65039); (65043, 65043); (65056, 65071);
    (65106, 65106); (65109, 65109); (65279, 65279); (65287, 65287);
    (65294, 65294); (65306, 65306); (65342, 65342); (65344, 65344);
    (65392, 65392); (65438, 65439); (65507, 65507); (65529, 65531);
    (66045, 66045); (66272, 66272); (66422, 66426); (67456, 67461);
    (67463, 67504); (67506, 67514); (68097, 68099); (68101, 68102);
    (68108, 68111); (68152, 68154); (68159, 68159); (68325, 68326);
    (68900, 68903); (69291, 69292); (69446, 69456); (69506, 69509);
    (69633, 69633); (69688, 69702); (69744, 69744); (69747, 69748);
    (69759, 69761); (69811, 69814); (69817, 69818); (69821, 69821);
    (69826, 69826); (69837, 69837); (69888, 69890); (69927, 69931);
    (69933, 69940); (70003, 70003); (70016, 70017); (70070, 70078);
    (70089, 70092); (70095, 70095); (70191, 70193); (70196, 70196);
    (70198, 70199); (70206, 70206); (70367, 70367); (70371, 70378);
    (70400, 70401); (70459, 70460); (70464, 70464); (70502, 70508);
    (70512, 70516); (70712, 70719); (70722, 70724); (70726, 70726);
    (70750, 70750); (70835, 70840); (70842, 70842); (70847, 70848);
    (70850, 70851); (71090, 71093); (71100, 71101); (71103, 71104);
    (71132, 71133); (71219, 71226); (71229, 71229); (71231, 71232);
    (71339, 71339); (71341, 71341); (71344, 71349); (71351, 71351);
    (71453, 71455); (71458, 71461); (71463, 71467); (71727, 71735);
    (71737, 71738); (71995, 71996); (71998, 71998); (72003, 72003);
    (72148, 72151); (72154, 72155); (72160, 72160); (72193, 72202);
    (72243, 72248); (72251, 72254); (72263, 72263); (72273, 72278);
    (72281, 72283); (72330, 72342); (72344, 72345); (72752, 72758);
    (72760, 72765); (72767, 72767); (72850, 72871); (72874, 72880);
    (72882, 72883); (72885, 72886); (73009, 73014); (73018, 73018);
    (73020, 73021); (73023, 73029); (73031, 73031); (73104, 73105);
    (73109, 73109); (73111, 73111); (73459, 73460); (78896, 78904);
    (92912, 92916); (92976, 92982); (92992, 92995); (94031, 94031);
    (94095, 94111); (94176, 94177); (94179, 94180); (110576, 110579);
    (110581, 110587); (110589, 110590); (113821, 113822); (113824, 113827);
    (118528, 118573); (118576, 118598); (119143, 119145); (119155, 119170);
    (119173, 119179); (119210, 119213); (119362, 119364); (121344, 121398);
    (121403, 121452); (121461, 121461); (121476, 121476); (121499, 121503);
    (121505, 121519); (122880, 122886); (122888, 122904); (122907, 122913);
    (122915, 122916); (122918, 122922); (123184, 123197); (123566, 123566);
    (123628, 123631); (125136, 125142); (125252, 125259); (127995, 127999);
    (917505, 917505); (917536, 917631); (917760, 917999)
    ]%N.

(** The cased code points among the others. *)
Definition is_cased : N → bool :=
  in_ranges
    [
    (65, 90); (97, 122); (170, 170); (181, 181); (186, 186); (192, 214);
    (216, 246); (248, 442); (444, 447); (452, 659); (661, 687); (880, 883);
    (886, 887); (891, 893); (895, 895); (902, 902); (904, 906); (908, 908);
    (910, 929); (931, 1013); (1015, 1153); (1162, 1327); (1329, 1366);
    (1376, 1416); (4256, 4293); (4295, 4295); (4301, 4301); (4304, 4346);
    (4349, 4351); (5024, 5109); (5112, 5117); (7296, 7304); (7312, 7354);
    (7357, 7359); (7424, 7467); (7531, 7543); (7545, 7578); (7680, 7957);
    (7960, 7965); (7968, 8005); (8008, 8013); (8016, 8023); (8025, 8025);
    (8027, 8027); (8029, 8029); (8031, 8061); (8064, 8116); (8118, 8124);
    (8126, 8126); (8130, 8132); (8134, 8140); (8144, 8147); (8150, 8155);
    (8160, 8172); (8178, 8180); (8182, 8188); (8450, 8450); (8455, 8455);
    (8458, 8467); (8469, 8469); (8473, 8477); (8484, 8484); (8486, 8486);
    (8488, 8488); (8490, 8493); (8495, 8500); (8505, 8505); (8508, 8511);
    (8517, 8521); (8526, 8526); (8544, 8575); (8579, 8580); (9398, 9449);
    (11264, 11387); (11390, 11492); (11499, 11502); (11506, 11507);
    (11520, 11557); (11559, 11559); (11565, 11565); (42560, 42605);
    (42624, 42651); (42786, 42863); (42865, 42887); (42891, 42894);
    (42896, 42954); (42960, 42961); (42963, 42963); (42965, 42969);
    (42997, 42998); (43002, 43002); (43824, 43866); (43872, 43880);
    (43888, 43967); (64256, 64262); (64275, 64279); (65313, 65338);
    (65345, 65370); (66560, 66639); (66736, 66771); (66776, 66811);
    (66928, 66938); (66940, 66954); (66956, 66962); (66964, 66965);
    (66967, 66977); (66979, 66993); (66995, 67001); (67003, 67004);
    (68736, 68786); (68800, 68850); (71840, 71903); (93760, 93823);
    (119808, 119892); (119894, 119964); (119966, 119967); (119970, 119970);
    (119973, 119974); (119977, 119980); (119982, 119993); (119995, 119995);
    (119997, 120003); (120005, 120069); (120071, 120074); (120077, 120084);
    (120086, 120092); (120094, 120121); (120123, 120126); (120128, 120132);
    (120134, 120134); (120138, 120144); (120146, 120485); (120488, 120512);
    (120514, 120538); (120540, 120570); (120572, 120596); (120598, 120628);
    (120630, 120654); (120656, 120686); (120688, 120712); (120714, 120744);
    (120746, 120770); (120772, 120779); (122624, 122633); (122635, 122654);
    (125184, 125251); (127280, 127305); (127312, 127337); (127344, 127369)
    ]%N.

Fixpoint skip_ignorable (s : text) : text :=
  match s with
  | c :: rest => if is_ignorable c then skip_ignorable rest else s
  | [] => []
  end.

(** The capital sigma U+03A3 is final when a cased letter comes before it
    and none after it, ignorable characters aside; [before] is the text
    before it, last character first. *)
Definition final_sigma (before after : text) : bool :=
  match skip_ignorable before with
  | c :: _ => is_cased c
  | [] => false
  end
  && match skip_ignorable after with
     | c :: _ => negb (is_cased c)
     | [] => true
     end.

Fixpoint lower_go (before s : text) : text :=
  match s with
  | [] => []
  | c :: rest =>
      (if (c =? 931)%N then
         [if final_sigma before rest then 962 else 963]%N
       else lower_full c)
      ++ lower_go (c :: before) rest
  end.

(** [s.lower()]. *)
Definition lower (s : text) : text := lower_go [] s.

Fixpoint starts_with (k s : text) : bool :=
  match k, s with
  | [], _ => true
  | a :: k', b :: s' => (a =? b)%N && starts_with k' s'
  | _ :: _, [] => false
  end.

(** [k in s]. *)
Fixpoint contains (k s : text) : bool :=
  starts_with k s ||
  match s with
  | [] => false
  | _ :: s' => contains k s'
  end.

Record Paper := {
  paper_id : text;
  paper_title : text;
  paper_abstract : text;
  paper_authors : list text;
  paper_link : text;
  paper_published : text;
  paper_updated : text;
  paper_categories : list text
}.

Record World := {
  sent_papers : option (gset text);
  log : list log_record
}.

(** Lines 86-90. *)
Definition search_text (search_title search_abstract : bool) (paper : Paper)
  : text :=
  let search_text := [] in
  let search_text :=
    if search_title then search_text ++ lower (paper_title paper) ++ [32%N]
    else search_text in
  let search_text :=
    if search_abstract then search_text ++ lower (paper_abstract paper)
    else search_text in
  search_text.

(** Lines 95-100. *)
Fixpoint all_keywords_match (search_text : text) (keyword_group : list text)
  : bool :=
  match keyword_group with
  | [] => true
  | keyword :: rest =>
      if negb (contains (lower keyword) search_text) then false
      else all_keywords_match search_text rest
  end.

(** Lines 93-105. *)
Fixpoint some_group_matches (search_text : text)
    (keyword_groups : list (list text)) : bool :=
  match keyword_groups with
  | [] => false
  | keyword_group :: rest =>
      if all_keywords_match search_text keyword_group then true
      else some_group_matches search_text rest
  end.

(** Lines 76-105. *)
Fixpoint search_loop (keyword_groups : list (list text))
    (search_title search_abstract : bool) (sent : gset text)
    (papers : list Paper) (matched_papers : list Paper) : list Paper :=
  match papers with
  | [] => matched_papers
  | paper :: rest =>
      let continue := search_loop keyword_groups search_title search_abstract
                        sent rest in
      if bool_decide (paper_id paper ∈ sent) then continue matched_papers
      else if negb search_title && negb search_abstract then
        continue matched_papers
      else
        let text := search_text search_title search_abstract paper in
        if some_group_matches text keyword_groups
        then continue (matched_papers ++ [paper])
        else continue matched_papers
  end.

(** Lines 55-108. *)
Definition search_papers (papers : list Paper)
    (keyword_groups : list (list text))
    (search_title search_abstract : bool) (w : World)
  : list Paper * World :=
  let sent := default ∅ (sent_papers w) in
  let matched_papers :=
    search_loop keyword_groups search_title search_abstract sent papers [] in
  (matched_papers,
   {| sent_papers := sent_papers w;
      log := log w ++ [{| levelname := INFO;
                          message := found_message (length matched_papers) |}]
   |}).

(** Two characters that are the same letter, in whatever case: one is the
    lower-case form of the other. *)
Definition same_letter (a b : N) : bool :=
  (a =? b)%N || (lower_simple a =? b)%N || (lower_simple b =? a)%N.

(** Two texts that differ only in the case of their letters. *)
Fixpoint case_variant (s t : text) : bool :=
  match s, t with
  | [], [] => true
  | a :: s', b :: t' => same_letter a b && case_variant s' t'
  | _, _ => false
  end.

Definition paper_case_variant (p q : Paper) : Prop :=
  paper_id p = paper_id q
  ∧ case_variant (paper_title p) (paper_title q) = true
  ∧ case_variant (paper_abstract p) (paper_abstract q) = true.

Definition rules_case_variant (gs gs' : list (list text)) : Prop :=
  Forall2 (Forall2 (λ k k', case_variant k k' = true)) gs gs'.



Definition world0 : World := {| sent_papers := Some ∅; log := [] |}.

End Unicode.





(** ** Notions used by the statements *)

(** The test one paper goes through in the loop of [search_papers]. *)
Definition selects (keyword_groups : list (list string))
    (search_title search_abstract : bool) (sent : gset string)
    (paper : Paper) : bool :=
  negb (bool_decide (paper_id paper ∈ sent))
  && (search_title || search_abstract)
  && some_group_matches (search_text search_title search_abstract paper)
       keyword_groups.

(** Every keyword of the group occurs, lower-cased, in the text. *)
Definition group_satisfied (text : string) (keyword_group : list string)
  : Prop :=
  ∀ keyword, keyword ∈ keyword_group → is_substring (lower keyword) text.

(** Two papers with the same identifier whose titles and abstracts differ
    only in case. *)
Definition paper_case_variant (p q : Paper) : Prop :=
  paper_id p = paper_id q
  ∧ case_variant (paper_title p) (paper_title q) = true
  ∧ case_variant (paper_abstract p) (paper_abstract q) = true.

(** Two rule sets whose keywords differ only in case. *)
Definition rules_case_variant (gs gs' : list (list string)) : Prop :=
  Forall2 (Forall2 (λ k k', case_variant k k' = true)) gs gs'.

(** ** Inputs of the examples *)

Definition paper1 : Paper :=
  {| paper_id := "1"; paper_title := "Deep Learning for Robotics";
     paper_abstract := "We study RL..."; paper_authors := [];
     paper_link := ""; paper_published := ""; paper_updated := "";
     paper_categories := [] |}.

Definition paper2 : Paper :=
  {| paper_id := "2"; paper_title := "Graph Neural Networks";
     paper_abstract := "..."; paper_authors := [];
     paper_link := ""; paper_published := ""; paper_updated := "";
     paper_categories := [] |}.

Definition world0 : World := {| sent_papers := Some ∅; log := [] |}.

Definition world1 : World := {| sent_papers := Some {["1"]}; log := [] |}.


(** A history file that holds the JSON text of an empty array. *)
Definition fs_array (path : string) : backing_store :=
  if decide (path = "sent_papers.json") then Json (JArray []) else Absent.

(** A device that is full: the file can be opened, nothing can be written. *)
Definition env_full : save_env :=
  {| history_dir := ""; now := "2024-05-02T09:00:00.000000";
     set_list := elements; makedirs_error := None; open_error := None;
     write_error := Some (0, "[Errno 28] No space left on device") |}.

(** A run without errors, in a process that lists sets from the largest
    member down. *)
Definition env_ok : save_env :=
  {| history_dir := "data"; now := "2024-05-02T09:00:00.000000";
     set_list := λ s, reverse (elements s);
     makedirs_error := None; open_error := None; write_error := None |}.

Definition disk_before : disk :=
  {| dir_exists := true;
     content :=
       Some (dump_history ["2401.00001v1"] "2024-05-01T09:00:00.000000") |}.

(** The write goes through: the file can be opened and the device takes the
    whole document. *)
Definition write_succeeds (env : save_env) (doc : string) : Prop :=
  open_error env = None
  ∧ ∀ n e, write_error env = Some (n, e) → String.length doc ≤ n.

(** ** Rule sets compared *)

(** The group [g'] asks no more than the group [g]: each of its keywords is,
    up to case, part of a keyword of [g]. *)
Definition asks_less (g g' : list string) : Prop :=
  ∀ k', k' ∈ g' → ∃ k, k ∈ g ∧ is_substring (lower k') (lower k).

(** Every group of [kgs] has a group of [kgs'] that asks no more. *)
Definition weaker_rules (kgs kgs' : list (list string)) : Prop :=
  ∀ g, g ∈ kgs → ∃ g', g' ∈ kgs' ∧ asks_less g g'.

(** Two groups with the same keywords, in whatever order and however often
    each is written. *)
Definition same_keywords (g g' : list string) : Prop :=
  ∀ k, k ∈ g ↔ k ∈ g'.

(** The same groups, up to the order of the groups, the order of the keywords
    in a group, and repetitions of groups and of keywords. *)
Definition same_rules (kgs kgs' : list (list string)) : Prop :=
  (∀ g, g ∈ kgs → ∃ g', g' ∈ kgs' ∧ same_keywords g g')
  ∧ (∀ g', g' ∈ kgs' → ∃ g, g ∈ kgs ∧ same_keywords g g').

(** The dictionary of lines 45-48 of [search.py], as [json.load] gives it
    back. *)
Definition history_value (sent : list string) (last_updated : string)
  : json :=
  JObject [("sent_papers", JArray (JString <$> sent));
           ("last_updated", JString last_updated)].

(** ** Reading the encoding back *)

Definition unhex (c : ascii) : N :=
  let n := N_of_ascii c in
  if (n <? 58)%N then (n - 48)%N else (n - 87)%N.

(** The inverse of [encode_char]: the character a text written by
    [encode_chars] begins with, and the rest of the text; [None] at the
    closing quote. *)
Definition decode_char (s : string) : option (ascii * string) :=
  match s with
  | String c rest =>
      if Ascii.eqb c dquote then None
      else if Ascii.eqb c "\" then
        match rest with
        | String e rest' =>
            if Ascii.eqb e "u" then
              match rest' with
              | String _ (String _ (String h (String l rest''))) =>
                  Some (ascii_of_N (16 * unhex h + unhex l), rest'')
              | _ => None
              end
            else if Ascii.eqb e "b" then Some (ascii_of_N 8, rest')
            else if Ascii.eqb e "f" then Some (ascii_of_N 12, rest')
            else if Ascii.eqb e "n" then Some (ascii_of_N 10, rest')
            else if Ascii.eqb e "r" then Some (ascii_of_N 13, rest')
            else if Ascii.eqb e "t" then Some (ascii_of_N 9, rest')
            else Some (e, rest')
        | EmptyString => None
        end
      else Some (c, rest)
  | EmptyString => None
  end.

(** The end of the document, from the comma after the list. *)
Definition dump_tail (last_updated : string) : string :=
  "," +:+ nl "  " +:+ encode_string "last_updated" +:+ ": "
  +:+ encode_string last_updated +:+ nl "" +:+ "}".

(** ** [arxiv_api.py]: building the papers *)

Definition info (msg : string) : log_record :=
  {| levelname := INFO; message := msg |}.

(** [sep.join(items)]. *)
Fixpoint join (sep : string) (items : list string) : string :=
  match items with
  | [] => ""
  | [x] => x
  | x :: rest => x +:+ sep +:+ join sep rest
  end.

(** [str.isspace] on one character. *)
Definition is_space (c : ascii) : bool :=
  let n := N_of_ascii c in
  ((9 <=? n) && (n <=? 13) || (28 <=? n) && (n <=? 32)
   || (n =? 133) || (n =? 160))%N.

Fixpoint lstrip (s : string) : string :=
  match s with
  | EmptyString => ""
  | String c s' => if is_space c then lstrip s' else s
  end.

Fixpoint rstrip (s : string) : string :=
  match s with
  | EmptyString => ""
  | String c s' =>
      match rstrip s' with
      | EmptyString => if is_space c then "" else String c ""
      | t => String c t
      end
  end.

(** [s.strip()]. *)
Definition strip (s : string) : string := rstrip (lstrip s).

(** [s.replace(a, b)] for one-character [a] and [b]. *)
Fixpoint replace_char (a b : ascii) (s : string) : string :=
  match s with
  | EmptyString => ""
  | String c s' =>
      String (if Ascii.eqb c a then b else c) (replace_char a b s')
  end.

Fixpoint string_drop (n : nat) (s : string) : string :=
  match n, s with
  | S n', String _ s' => string_drop n' s'
  | _, _ => s
  end.

(** The scan of [s.split(sep)], from the left and without overlaps: the text
    after the last separator found in [s], when there is one; [skip] is the
    number of characters of [s] that still belong to a separator found
    before. *)
Fixpoint last_cut (sep : string) (skip : nat) (s : string) : option string :=
  match s with
  | EmptyString => None
  | String _ s' =>
      match skip with
      | S k => last_cut sep k s'
      | 0 =>
          if String.prefix sep s then
            Some (default (string_drop (String.length sep) s)
                    (last_cut sep (String.length sep - 1) s'))
          else last_cut sep 0 s'
      end
  end.

(** [s.split(sep)[-1]], for a separator that is not empty. *)
Definition split_last (sep s : string) : string :=
  default s (last_cut sep 0 s).

(** A text without line break that neither begins nor ends with a
    white-space character. *)
Definition tidy (t : string) : Prop :=
  contains (String newline "") t = false
  ∧ (∀ c t', t = String c t' → is_space c = false)
  ∧ (∀ t' c, t = t' +:+ String c "" → is_space c = false).

(** An entry of the parsed feed, with the attributes that are read. *)
Record Entry := {
  entry_id : string;
  entry_title : string;
  entry_summary : string;
  entry_authors : list string;     (* author.name for each author *)
  entry_link : string;
  entry_published : string;
  entry_updated : string;
  entry_tags : list string         (* tag['term'] for each tag *)
}.

(** Lines 48-57 and 125-134. *)
Definition paper_of_entry (entry : Entry) : Paper :=
  {| paper_id := split_last "/abs/" (entry_id entry);
     paper_title := strip (replace_char newline " " (entry_title entry));
     paper_abstract := strip (replace_char newline " " (entry_summary entry));
     paper_authors := entry_authors entry;
     paper_link := entry_link entry;
     paper_published := entry_published entry;
     paper_updated := entry_updated entry;
     paper_categories := entry_tags entry |}.

(** What [feedparser.parse(url)] hands back: the status, when the feed has
    one, and the entries. *)
Record Feed := {
  feed_status : option Z;
  feed_entries : list Entry
}.

(** Lines 23-30 and 102-107: the address that is fetched. *)
Definition query_url (categories : list string) (max_results : Z) : string :=
  let category_query := join " OR " ((λ cat, "cat:" +:+ cat) <$> categories) in
  let base_url := "https://export.arxiv.org/api/query?" in
  let query :=
    "search_query=" +:+ category_query
    +:+ "&sortBy=submittedDate&sortOrder=descending&max_results="
    +:+ pretty max_results in
  base_url +:+ query.

(** Lines 32-61 and 109-138, with the texts of the two log records that
    differ between [fetch_papers] and [fetch_papers_from_rss]. *)
Definition fetch_with (fetching fetched : string)
    (categories : list string) (max_results : Z)
    (parse : string → Feed) (log : list log_record)
  : list Paper * list log_record :=
  let url := query_url categories max_results in
  let log := log ++ [info (fetching +:+ url)] in
  let feed := parse url in
  match feed_status feed with
  | Some status =>
      if bool_decide (status ≠ 200%Z) then
        ([], log ++ [error ("Error fetching arXiv feed: " +:+ pretty status)])
      else
        let papers := paper_of_entry <$> feed_entries feed in
        (papers,
         log ++ [info ("Fetched " +:+ pretty (length papers) +:+ fetched)])
  | None =>
      let papers := paper_of_entry <$> feed_entries feed in
      (papers,
       log ++ [info ("Fetched " +:+ pretty (length papers) +:+ fetched)])
  end.

Definition fetch_papers :=
  fetch_with "Fetching papers from arXiv API: " " papers from arXiv".

Definition fetch_papers_from_rss :=
  fetch_with "Fetching recent papers from arXiv API: "
    " recent papers from arXiv".

(** ** [arxiv_api.py]: [filter_papers_by_date] *)

(** Lines 77-82.  Instants are counted in microseconds from
    0001-01-01T00:00:00, the smallest [datetime]; [strptime] is
    [datetime.strptime(.., "%Y-%m-%dT%H:%M:%SZ")], [None] when it raises
    ValueError, which ends the loop and the call. *)
Fixpoint filter_loop (strptime : string → option Z) (cutoff_date : Z)
    (papers : list Paper) (filtered_papers : list Paper)
  : option (list Paper) :=
  match papers with
  | [] => Some filtered_papers
  | paper :: rest =>
      match strptime (paper_published paper) with
      | None => None
      | Some published_date =>
          if (cutoff_date <=? published_date)%Z
          then filter_loop strptime cutoff_date rest (filtered_papers ++ [paper])
          else filter_loop strptime cutoff_date rest filtered_papers
      end
  end.

Definition microseconds_per_day : Z := 86400000000.

(** The largest [datetime], 9999-12-31T23:59:59.999999, and the largest
    number of days of a [timedelta]. *)
Definition max_instant : Z := 315537897599999999.
Definition max_days : Z := 999999999.

(** Line 74: [datetime.now() - timedelta(days=days)], [None] when the
    [timedelta] or the difference is out of range (OverflowError). *)
Definition cutoff (now days : Z) : option Z :=
  if (max_days <? Z.abs days)%Z then None
  else
    let cutoff_date := (now - days * microseconds_per_day)%Z in
    if (0 <=? cutoff_date)%Z && (cutoff_date <=? max_instant)%Z
    then Some cutoff_date else None.

(** Lines 63-85; [now] is [datetime.now()].  The value is [None] when the
    call raises: OverflowError at line 74, ValueError at line 79. *)
Definition filter_papers_by_date (strptime : string → option Z) (now : Z)
    (papers : list Paper) (days : Z) (log : list log_record)
  : option (list Paper) * list log_record :=
  match cutoff now days with
  | None => (None, log)
  | Some cutoff_date =>
      match filter_loop strptime cutoff_date papers [] with
      | None => (None, log)
      | Some filtered_papers =>
          (Some filtered_papers,
           log ++ [info ("Filtered to " +:+ pretty (length filtered_papers)
                         +:+ " papers published in the last "
                         +:+ pretty days +:+ " days")])
      end
  end.

(** The test of line 81 on one paper whose date can be read. *)
Definition recent (strptime : string → option Z) (cutoff_date : Z)
    (paper : Paper) : bool :=
  match strptime (paper_published paper) with
  | Some published_date => (cutoff_date <=? published_date)%Z
  | None => false
  end.

(** ** [arxiv_alert.py]: from the search to the end of [main] *)

(** What the call of [send_email] did: the value it returned with the
    records it logged, or the text of the exception that left it. *)
Inductive send_outcome :=
  | SendReturns (success : bool) (records : list log_record)
  | SendRaises (e : string).

(** The objects [main] holds when it reaches line 94: the set loaded from
    the history file, here a set of identifiers, the history file itself,
    and the log. *)
Record State := {
  st_sent : gset string;
  st_disk : disk;
  st_log : list log_record
}.

(** Lines 112-113: one record per matched paper, numbered from [i]. *)
Fixpoint paper_records (i : nat) (papers : list Paper) : list log_record :=
  match papers with
  | [] => []
  | paper :: rest =>
      info ("Paper " +:+ pretty i +:+ ": " +:+ paper_title paper +:+ " by "
            +:+ join ", " (take 3 (paper_authors paper)))
      :: paper_records (S i) rest
  end.

(** Lines 121-122: [sent_papers.add(paper['id'])] for each matched paper. *)
Fixpoint add_ids (matched_papers : list Paper) (sent : gset string)
  : gset string :=
  match matched_papers with
  | [] => sent
  | paper :: rest => add_ids rest ({[paper_id paper]} ∪ sent)
  end.

Definition completed : log_record :=
  info "arXiv Alert completed successfully".

(** Lines 108-134 of [main]: what is done with the matched papers; [log0]
    is the log after the search.  The value is the exit code and the state
    when [main] returns. *)
Definition notify_and_record (matched_papers : list Paper) (dry_run : bool)
    (send : send_outcome) (env : save_env) (s : State)
    (log0 : list log_record) : Z * State :=
  let n := pretty (length matched_papers) in
  match matched_papers with
  | [] =>
      (0%Z,
       {| st_sent := st_sent s; st_disk := st_disk s;
          st_log := log0 ++ [info "No papers matched the search criteria";
                             completed] |})
  | _ :: _ =>
      if dry_run then
        (0%Z,
         {| st_sent := st_sent s; st_disk := st_disk s;
            st_log :=
              log0
              ++ [info ("DRY RUN: Would send email with " +:+ n
                        +:+ " matched papers")]
              ++ paper_records 1 matched_papers ++ [completed] |})
      else
        let log1 :=
          log0 ++ [info ("Sending email with " +:+ n +:+ " matched papers")]
        in
        match send with
        | SendRaises e =>
            (1%Z,
             {| st_sent := st_sent s; st_disk := st_disk s;
                st_log := log1 ++ [error ("Error: " +:+ e)] |})
        | SendReturns false records =>
            (0%Z,
             {| st_sent := st_sent s; st_disk := st_disk s;
                st_log := log1 ++ records ++ [completed] |})
        | SendReturns true records =>
            let sent := add_ids matched_papers (st_sent s) in
            match save_sent_papers env sent (st_disk s) (log1 ++ records) with
            | (Raises _, d, log2) =>
                (1%Z,
                 {| st_sent := sent; st_disk := d;
                    st_log :=
                      log2 ++ [error ("Error: "
                                      +:+ raised_text env (st_disk s))] |})
            | (Returns _, d, log2) =>
                (0%Z,
                 {| st_sent := sent; st_disk := d;
                    st_log :=
                      log2
                      ++ [info ("Updated sent papers history ("
                                +:+ pretty (size sent) +:+ " papers)");
                          completed] |})
            end
        end
  end.

(** Lines 94-134 of [main]: the search, then the above. *)
Definition main_search_and_notify (papers : list Paper)
    (keyword_groups : list (list string))
    (search_title search_abstract dry_run : bool)
    (send : send_outcome) (env : save_env) (s : State) : Z * State :=
  let '(matched_papers, w) :=
    search_papers papers keyword_groups search_title search_abstract
      {| sent_papers := Some (st_sent s); log := st_log s |} in
  notify_and_record matched_papers dry_run send env s (log w).

(** ** From one run to the next *)

Definition string_key (k : pykey) : option string :=
  match k with
  | KStr x => Some x
  | KNone | KInt _ => None
  end.

(** The strings of a loaded set: what [paper['id'] in sent_papers] can
    find. *)
Definition identifiers (s : gset pykey) : gset string :=
  list_to_set (omap string_key (elements s)).

(** The history file holds a history document; and a next run that reads
    the dictionary of that document back from the file finds nothing to
    send on [papers], whatever its flags, the mail server and the disk:
    it exits with 0 and leaves the seen set and the file as they were. *)
Definition next_run_idle (papers : list Paper) (kgs : list (list string))
    (st sa : bool) (d : disk) : Prop :=
  ∃ items last_updated,
    content d = Some (dump_history items last_updated)
    ∧ ∀ fs history_file log1,
        fs history_file = Json (history_value items last_updated) →
        ∃ loaded,
          load_sent_papers fs history_file log1 = (Returns loaded, log1)
          ∧ ∀ dry_run send env,
              let '(code, s) :=
                main_search_and_notify papers kgs st sa dry_run send env
                  {| st_sent := identifiers loaded; st_disk := d;
                     st_log := log1 |} in
              code = 0%Z ∧ st_sent s = identifiers loaded ∧ st_disk s = d.

(** ** More inputs of the examples *)

(** The world once the identifiers of [papers] are added to the seen set. *)
Definition world_with (w : World) (papers : list Paper) : World :=
  {| sent_papers := Some (seen w ∪ list_to_set (paper_id <$> papers));
     log := log w |}.

Definition state0 : State :=
  {| st_sent := {["1"]}; st_disk := disk_before; st_log := [] |}.

Definition entry1 : Entry :=
  {| entry_id := "http://arxiv.org/abs/2401.00001v1";
     entry_title := String.append "  Deep" (String newline "Learning ");
     entry_summary := "We study RL..."; entry_authors := ["A. Author"];
     entry_link := "http://arxiv.org/abs/2401.00001v1";
     entry_published := "2024-05-01T09:00:00Z";
     entry_updated := "2024-05-01T09:00:00Z"; entry_tags := ["cs.LG"] |}.

Definition paper3 : Paper :=
  {| paper_id := "2405.00003v1"; paper_title := "Graph Transformers";
     paper_abstract := "Attention on graphs."; paper_authors := ["A. Author"];
     paper_link := "http://arxiv.org/abs/2405.00003v1";
     paper_published := "2024-05-01T18:00:00Z";
     paper_updated := "2024-05-01T18:00:00Z"; paper_categories := ["cs.LG"] |}.

Definition paper4 : Paper :=
  {| paper_id := "2404.00004v2"; paper_title := "Graph Kernels";
     paper_abstract := "Kernels on graphs."; paper_authors := ["B. Author"];
     paper_link := "http://arxiv.org/abs/2404.00004v2";
     paper_published := "2024-04-02T18:00:00Z";
     paper_updated := "2024-05-01T18:00:00Z"; paper_categories := ["cs.LG"] |}.

(** The two dates of the examples; no other text is read as a date. *)
Definition strptime0 (s : string) : option Z :=
  if decide (s = "2024-05-01T18:00:00Z") then Some 63850183200000000%Z
  else if decide (s = "2024-04-02T18:00:00Z") then Some 63847677600000000%Z
  else None.

(** 2024-05-02T09:00:00. *)
Definition now0 : Z := 63850237200000000.

(** * Properties *)

(** ** The scenarios of the specification *)

Example scenario_match :
  (search_papers [paper1] [["deep learning"]; ["reinforcement"; "robot"]]
     true true world0).1 = [paper1].
Proof. vm_compute. reflexivity. Qed.

Example scenario_seen :
  (search_papers [paper1] [["deep learning"]; ["reinforcement"; "robot"]]
     true true {| sent_papers := Some {["1"]}; log := [] |}).1 = [].
Proof. vm_compute. reflexivity. Qed.

Example scenario_title_only :
  (search_papers [paper2] [["deep learning"]] true false world0).1 = [].
Proof. vm_compute. reflexivity. Qed.

Example scenario_log :
  log (search_papers [paper1; paper2] [["deep learning"]] true true world0).2
  = [{| levelname := INFO;
        message := "Found 1 papers matching the search criteria" |}].
Proof. vm_compute. reflexivity. Qed.

(** ** Strings *)

Lemma append_nil_l s : "" +:+ s = s.
Proof. reflexivity. Qed.

Lemma append_cons a s t : String a s +:+ t = String a (s +:+ t).
Proof. reflexivity. Qed.

Lemma append_nil_r s : s +:+ "" = s.
Proof. induction s as [|a s IH]; [done|]. by rewrite append_cons, IH. Qed.

Lemma append_assoc s t u : (s +:+ t) +:+ u = s +:+ t +:+ u.
Proof.
  induction s as [|a s IH]; [done|]. by rewrite !append_cons, IH.
Qed.

Lemma append_eq_nil s t : s +:+ t = "" → s = "" ∧ t = "".
Proof. destruct s; [done|]. rewrite append_cons. discriminate. Qed.

Lemma prefix_spec k s : String.prefix k s = true ↔ ∃ v, s = k +:+ v.
Proof.
  revert k. induction s as [|b s IH]; intros [|a k]; simpl.
  - split; [by exists ""|done].
  - split; [done|]. intros [v Hv]. rewrite append_cons in Hv. discriminate.
  - split; [by eexists|done].
  - destruct (ascii_dec a b) as [->|Hab].
    + rewrite IH. split; intros [v Hv]; exists v.
      * by rewrite append_cons, <-Hv.
      * rewrite append_cons in Hv. congruence.
    + split; [done|]. intros [v Hv]. rewrite append_cons in Hv. congruence.
Qed.

Lemma contains_spec k s : contains k s = true ↔ is_substring k s.
Proof.
  induction s as [|c s IH]; cbn [contains]; rewrite orb_true_iff, prefix_spec.
  - split.
    + intros [[v Hv]|?]; [|done]. by exists "", v.
    + intros (u & v & Huv). left.
      apply eq_sym, append_eq_nil in Huv as [-> [-> ->]%append_eq_nil].
      by exists "".
  - rewrite IH. split.
    + intros [[v Hv]|(u & v & Huv)].
      * by exists "", v.
      * exists (String c u), v. by rewrite append_cons, <-Huv.
    + intros ([|c' u] & v & Huv).
      * left. by exists v.
      * right. exists u, v. rewrite append_cons in Huv. congruence.
Qed.

Lemma is_substring_app k s a b :
  is_substring k s → is_substring k (a +:+ s +:+ b).
Proof.
  intros (u & v & ->). exists (a +:+ u), (v +:+ b).
  by rewrite !append_assoc.
Qed.

Lemma is_substring_refl k : is_substring k k.
Proof. exists "", "". by rewrite append_nil_l, append_nil_r. Qed.

Lemma lower_char_idemp c : lower_char (lower_char c) = lower_char c.
Proof. by destruct c as [[] [] [] [] [] [] [] []]. Qed.

Lemma same_letter_lower a b :
  same_letter a b = true → lower_char a = lower_char b.
Proof.
  unfold same_letter. rewrite !orb_true_iff, !andb_true_iff, !Ascii.eqb_eq.
  intros [[->| [_ <-]] | [_ <-]]; by rewrite ?lower_char_idemp.
Qed.

Lemma case_variant_lower s t : case_variant s t = true → lower s = lower t.
Proof.
  revert t. induction s as [|a s IH]; intros [|b t]; simpl; try done.
  rewrite andb_true_iff. intros [Hab Hst].
  by rewrite (same_letter_lower a b Hab), (IH t Hst).
Qed.

(** ** The loops of [search_papers] *)

Lemma all_keywords_match_spec text g :
  all_keywords_match text g = true ↔ group_satisfied text g.
Proof.
  unfold group_satisfied. induction g as [|k g IH]; simpl.
  - split; [|done]. intros _ k Hk. by apply elem_of_nil in Hk.
  - destruct (contains (lower k) text) eqn:Hk; simpl.
    + rewrite IH. apply contains_spec in Hk. split.
      * intros Hg k' [->|Hk']%elem_of_cons; auto.
      * intros Hg k' Hk'. apply Hg. by right.
    + split; [done|]. intros Hg.
      assert (contains (lower k) text = true) as Hk'; [|congruence].
      apply contains_spec, Hg. by left.
Qed.

Lemma some_group_matches_spec text gs :
  some_group_matches text gs = true ↔ ∃ g, g ∈ gs ∧ group_satisfied text g.
Proof.
  induction gs as [|g gs IH]; simpl.
  - split; [done|]. intros (g & Hg & _). by apply elem_of_nil in Hg.
  - destruct (all_keywords_match text g) eqn:Hg.
    + split; [|done]. intros _. exists g. split; [by left|].
      by apply all_keywords_match_spec.
    + rewrite IH. split.
      * intros (g' & Hg' & Hsat). exists g'. split; [by right|done].
      * intros (g' & [->|Hg']%elem_of_cons & Hsat); [|by exists g'].
        apply all_keywords_match_spec in Hsat. congruence.
Qed.

Lemma search_loop_step kgs st sa sent p ps acc :
  search_loop kgs st sa sent (p :: ps) acc
  = search_loop kgs st sa sent ps
      (if selects kgs st sa sent p then acc ++ [p] else acc).
Proof.
  unfold selects. simpl.
  destruct (bool_decide (paper_id p ∈ sent)); [done|].
  destruct st, sa; simpl; try done.
  all: by destruct (some_group_matches _ kgs).
Qed.

Lemma search_loop_filter kgs st sa sent ps acc :
  search_loop kgs st sa sent ps acc
  = acc ++ filter (λ p, selects kgs st sa sent p) ps.
Proof.
  revert acc. induction ps as [|p ps IH]; intros acc.
  - simpl. by rewrite app_nil_r.
  - rewrite search_loop_step, IH, filter_cons.
    destruct (decide _) as [Hs|Hs].
    + apply Is_true_true in Hs. rewrite Hs. by rewrite <-app_assoc.
    + apply Is_true_false in Hs. by rewrite Hs.
Qed.

Lemma search_papers_result ps kgs st sa w :
  (search_papers ps kgs st sa w).1
  = filter (λ p, selects kgs st sa (seen w) p) ps.
Proof. unfold search_papers. simpl. by rewrite search_loop_filter. Qed.

Lemma selects_spec kgs st sa sent p :
  selects kgs st sa sent p = true ↔
  (paper_id p ∉ sent) ∧ (st || sa) = true
  ∧ ∃ g, g ∈ kgs ∧ group_satisfied (search_text st sa p) g.
Proof.
  unfold selects.
  rewrite !andb_true_iff, negb_true_iff, bool_decide_eq_false.
  rewrite some_group_matches_spec. tauto.
Qed.

(** ** What [search_papers] returns *)

(** The text of lines 86-90, spelled out: the lower-cased title followed by
    a space when the title is searched, then the lower-cased abstract when
    the abstract is searched. *)
Lemma search_text_eq st sa p :
  search_text st sa p
  = (if st then lower (paper_title p) +:+ " " else "")
    +:+ (if sa then lower (paper_abstract p) else "").
Proof. destruct st, sa; simpl; by rewrite ?append_nil_l, ?append_nil_r. Qed.

(** C1.  For a paper of the input list whose identifier is not in the seen
    set, with at least one scope flag true, [search_papers] returns the paper
    if and only if some keyword group of the rule set has every one of its
    keywords occurring, lower-cased, inside the searchable text built from
    the enabled fields (the lower-cased title and a space when the title is
    searched, then the lower-cased abstract when the abstract is searched):
    OR over the groups, AND within a group. *)
Theorem search_papers_or_of_and ps kgs st sa w p :
  p ∈ ps → paper_id p ∉ seen w → (st || sa) = true →
  p ∈ (search_papers ps kgs st sa w).1 ↔
  ∃ g, g ∈ kgs ∧
       ∀ k, k ∈ g →
            is_substring (lower k)
              ((if st then lower (paper_title p) +:+ " " else "")
               +:+ (if sa then lower (paper_abstract p) else "")).
Proof.
  intros Hp Hid Hscope.
  rewrite search_papers_result, list_elem_of_filter, Is_true_true.
  rewrite selects_spec, <-search_text_eq. unfold group_satisfied. tauto.
Qed.

Lemma search_papers_or_of_and_witness :
  paper1 ∈ [paper2; paper1] ∧ (paper_id paper1 ∉ seen world0)
  ∧ (true || false) = true
  ∧ (paper1 ∈ (search_papers [paper2; paper1]
                 [["deep learning"]; ["reinforcement"; "robot"]]
                 true false world0).1 ↔
     ∃ g, g ∈ [["deep learning"]; ["reinforcement"; "robot"]] ∧
          ∀ k, k ∈ g →
               is_substring (lower k)
                 ((if true then lower (paper_title paper1) +:+ " " else "")
                  +:+ (if false then lower (paper_abstract paper1) else ""))).
Proof.
  assert (paper1 ∈ [paper2; paper1]) as H1 by (right; left).
  assert (paper_id paper1 ∉ seen world0) as H2 by apply not_elem_of_empty.
  split; [exact H1|]. split; [exact H2|]. split; [reflexivity|].
  exact (search_papers_or_of_and _ _ true false world0 paper1 H1 H2 eq_refl).
Defined.

(** The two searched fields are told apart: a keyword of the abstract alone
    is found when the abstract is searched and not when only the title
    is. *)
Example search_papers_fields :
  (search_papers [paper1] [["study"]] false true world0).1 = [paper1]
  ∧ (search_papers [paper1] [["study"]] true false world0).1 = []
  ∧ (search_papers [paper1] [["robotics"]] true false world0).1 = [paper1]
  ∧ (search_papers [paper1] [["robotics"]] false true world0).1 = [].
Proof. by vm_compute. Qed.

(** C2.  [search_papers] never returns a paper whose identifier is in the
    [sent_papers] set, whatever the papers, the rules and the scope. *)
Theorem search_papers_skips_sent ps kgs st sa w sent p :
  sent_papers w = Some sent → paper_id p ∈ sent →
  p ∉ (search_papers ps kgs st sa w).1.
Proof.
  intros Hw Hid.
  rewrite search_papers_result, list_elem_of_filter, Is_true_true.
  rewrite selects_spec. unfold seen. rewrite Hw. simpl. tauto.
Qed.

Lemma search_papers_skips_sent_witness :
  sent_papers world1 = Some {["1"]} ∧ paper_id paper1 ∈ ({["1"]} : gset string)
  ∧ paper1 ∉ (search_papers [paper1; paper2] [["deep learning"]; []]
                true true world1).1.
Proof.
  assert (paper_id paper1 ∈ ({["1"]} : gset string)) as H
    by (by apply elem_of_singleton).
  split; [reflexivity|]. split; [exact H|].
  exact (search_papers_skips_sent _ _ true true world1 _ paper1 eq_refl H).
Defined.

(** C3.  The list [search_papers] returns is a subsequence of the input
    list: its papers are input papers, taken at most once per position and
    in the order of the input. *)
Theorem search_papers_sublist ps kgs st sa w :
  (search_papers ps kgs st sa w).1 `sublist_of` ps.
Proof. rewrite search_papers_result. apply sublist_filter. Qed.

(** In particular a list of distinct papers gives distinct results. *)
Lemma search_papers_NoDup ps kgs st sa w :
  NoDup ps → NoDup (search_papers ps kgs st sa w).1.
Proof.
  intros Hps. rewrite search_papers_result. by apply NoDup_filter.
Qed.

(** C5.  With both scope flags false, [search_papers] returns the empty list
    for every list of papers and every rule set that is not empty. *)
Theorem search_papers_no_scope ps kgs w :
  kgs ≠ [] → (search_papers ps kgs false false w).1 = [].
Proof.
  intros _. rewrite search_papers_result.
  induction ps as [|p ps IH]; [done|].
  rewrite filter_cons, IH. unfold selects. simpl.
  by rewrite andb_false_r.
Qed.

Lemma search_papers_no_scope_witness :
  [["deep learning"]] ≠ [] ∧
  (search_papers [paper1; paper2] [["deep learning"]] false false world0).1
  = [].
Proof.
  assert ([["deep learning"]] ≠ @nil (list string)) as H by discriminate.
  split; [exact H|]. exact (search_papers_no_scope _ _ world0 H).
Defined.

(** C8.  An empty keyword group is satisfied by every text: a paper of the
    input whose identifier is not in the seen set, with at least one scope
    flag true, is returned as soon as the rule set contains an empty
    group. *)
Theorem search_papers_empty_group ps kgs st sa w p :
  p ∈ ps → paper_id p ∉ seen w → (st || sa) = true → [] ∈ kgs →
  p ∈ (search_papers ps kgs st sa w).1.
Proof.
  intros Hp Hid Hscope Hg.
  rewrite search_papers_result, list_elem_of_filter, Is_true_true.
  rewrite selects_spec. repeat split; try done.
  exists []. split; [done|]. intros k Hk. by apply elem_of_nil in Hk.
Qed.

Lemma search_papers_empty_group_witness :
  paper2 ∈ [paper2] ∧ (paper_id paper2 ∉ seen world1)
  ∧ (false || true) = true ∧ [] ∈ [["deep learning"]; []]
  ∧ paper2 ∈ (search_papers [paper2] [["deep learning"]; []]
                false true world1).1.
Proof.
  assert (paper2 ∈ [paper2]) as H1 by left.
  assert (paper_id paper2 ∉ seen world1) as H2.
  { unfold seen. simpl. intros Hin%elem_of_singleton. discriminate. }
  assert ([] ∈ [["deep learning"]; @nil string]) as H3 by (right; left).
  split; [exact H1|]. split; [exact H2|]. split; [reflexivity|].
  split; [exact H3|].
  exact (search_papers_empty_group _ _ false true world1 paper2
           H1 H2 eq_refl H3).
Defined.

(** C10.  With no keyword group at all, [search_papers] returns the empty
    list for every list of papers, every scope and every seen set. *)
Theorem search_papers_no_group ps st sa w :
  (search_papers ps [] st sa w).1 = [].
Proof.
  rewrite search_papers_result.
  induction ps as [|p ps IH]; [done|].
  rewrite filter_cons, IH. unfold selects. simpl.
  by rewrite andb_false_r.
Qed.

Lemma all_keywords_match_same_lower text g g' :
  Forall2 (λ k k', lower k = lower k') g g' →
  all_keywords_match text g = all_keywords_match text g'.
Proof.
  induction 1 as [|k k' g g' Hk _ IH]; [done|]. simpl. by rewrite IH, Hk.
Qed.

Lemma some_group_matches_same_lower text gs gs' :
  Forall2 (Forall2 (λ k k', lower k = lower k')) gs gs' →
  some_group_matches text gs = some_group_matches text gs'.
Proof.
  induction 1 as [|g g' gs gs' Hg _ IH]; [done|]. simpl.
  by rewrite IH, (all_keywords_match_same_lower text g g' Hg).
Qed.

(** Papers and keywords enter the search through [lower] only. *)
Lemma search_papers_same_lower ps ps' kgs kgs' st sa w w' :
  Forall2 (λ p q, paper_id p = paper_id q
                  ∧ lower (paper_title p) = lower (paper_title q)
                  ∧ lower (paper_abstract p) = lower (paper_abstract q))
    ps ps' →
  Forall2 (Forall2 (λ k k', lower k = lower k')) kgs kgs' →
  sent_papers w = sent_papers w' →
  paper_id <$> (search_papers ps kgs st sa w).1
  = paper_id <$> (search_papers ps' kgs' st sa w').1.
Proof.
  intros Hps Hkgs Hw. rewrite !search_papers_result.
  unfold seen. rewrite <-Hw. set (sent := default ∅ (sent_papers w)).
  pose proof (λ text, some_group_matches_same_lower text _ _ Hkgs)
    as Hgroups.
  induction Hps as [|p q ps qs (Hid & Ht & Ha) _ IH]; [done|].
  assert (selects kgs st sa sent p = selects kgs' st sa sent q) as Hsel.
  { unfold selects, search_text. by rewrite Hid, Hgroups, Ht, Ha. }
  rewrite !filter_cons.
  destruct (decide (selects kgs st sa sent p)) as [Hp|Hp];
    destruct (decide (selects kgs' st sa sent q)) as [Hq|Hq].
  - rewrite !fmap_cons. by rewrite Hid, IH.
  - by rewrite Hsel in Hp.
  - by rewrite <-Hsel in Hq.
  - done.
Qed.

(** On strings of the range 0..255, matching does not depend on case. *)
Lemma search_papers_case_insensitive ps ps' kgs kgs' st sa w w' :
  Forall2 paper_case_variant ps ps' → rules_case_variant kgs kgs' →
  sent_papers w = sent_papers w' →
  paper_id <$> (search_papers ps kgs st sa w).1
  = paper_id <$> (search_papers ps' kgs' st sa w').1.
Proof.
  intros Hps Hkgs. apply search_papers_same_lower.
  - eapply Forall2_impl; [exact Hps|].
    intros p q (Hid & Ht & Ha). eauto using case_variant_lower.
  - eapply Forall2_impl; [exact Hkgs|]. intros g g' Hg.
    eapply Forall2_impl; [exact Hg|]. eauto using case_variant_lower.
Qed.

(** ** The same search over text of any code points *)


















(** The one effect of a call: a record on the logger. *)
Lemma search_papers_log ps kgs st sa w :
  log (search_papers ps kgs st sa w).2
  = log w ++ [{| levelname := INFO;
                 message :=
                   found_message (length (search_papers ps kgs st sa w).1) |}].
Proof. reflexivity. Qed.

(** A call is not free of effects: it leaves a record on the logger. *)
Lemma search_papers_logs :
  (search_papers [paper1; paper2] [["deep learning"]] true true world0).2
  = {| sent_papers := Some ∅;
       log := [{| levelname := INFO;
                  message := "Found 1 papers matching the search criteria" |}]
    |}
  ∧ (search_papers [paper1; paper2] [["deep learning"]] true true world0).2
    ≠ world0.
Proof. split; [by vm_compute|]. intros H. by apply (f_equal log) in H. Qed.

(** C9, as the code has it.  The list [search_papers] returns depends on
    nothing but the papers, the keyword groups, the scope flags and the
    seen set, and on the seen set only through the identifiers of the
    papers it is given: two calls that agree on these, in whatever worlds,
    return the same list.  A call leaves the [sent_papers] set as it was,
    and its one effect is a record on the logger that tells how many papers
    were found. *)
Theorem search_papers_only_logs ps kgs st sa w1 w2 :
  (∀ p, p ∈ ps → paper_id p ∈ seen w1 ↔ paper_id p ∈ seen w2) →
  (search_papers ps kgs st sa w1).1 = (search_papers ps kgs st sa w2).1
  ∧ (search_papers ps kgs st sa w1).2
    = {| sent_papers := sent_papers w1;
         log := log w1
                ++ [{| levelname := INFO;
                       message :=
                         found_message
                           (length (search_papers ps kgs st sa w1).1) |}] |}.
Proof.
  intros Hseen. split; [|done]. rewrite !search_papers_result.
  induction ps as [|p ps IH]; [done|].
  assert (selects kgs st sa (seen w1) p = selects kgs st sa (seen w2) p)
    as Hsel.
  { unfold selects. f_equal. f_equal. f_equal. apply bool_decide_ext.
    apply Hseen. by left. }
  rewrite !filter_cons, IH by (intros q Hq; apply Hseen; by right).
  destruct (decide (selects kgs st sa (seen w1) p)) as [H1|H1];
    destruct (decide (selects kgs st sa (seen w2) p)) as [H2|H2];
    try done.
  - by rewrite Hsel in H1.
  - by rewrite <-Hsel in H2.
Qed.

Lemma search_papers_only_logs_witness :
  (∀ p, p ∈ [paper1; paper2] →
        paper_id p ∈ seen world1
        ↔ paper_id p ∈ seen (world_with world1 [paper3]))
  ∧ (search_papers [paper1; paper2] [["graph"]] true true world1).1
    = (search_papers [paper1; paper2] [["graph"]] true true
         (world_with world1 [paper3])).1
  ∧ (search_papers [paper1; paper2] [["graph"]] true true world1).2
    = {| sent_papers := sent_papers world1;
         log := log world1
                ++ [{| levelname := INFO;
                       message :=
                         found_message
                           (length (search_papers [paper1; paper2]
                                      [["graph"]] true true world1).1) |}] |}.
Proof.
  assert (∀ p, p ∈ [paper1; paper2] →
               paper_id p ∈ seen world1
               ↔ paper_id p ∈ seen (world_with world1 [paper3])) as H.
  { intros p Hp.
    change (seen (world_with world1 [paper3]))
      with (seen world1 ∪ list_to_set (paper_id <$> [paper3])).
    split; [by apply elem_of_union_l|].
    intros [?|Hin]%elem_of_union; [done|]. exfalso.
    apply elem_of_list_to_set, list_elem_of_singleton in Hin.
    apply elem_of_cons in Hp as [->|Hp];
      [|apply list_elem_of_singleton in Hp as ->]; discriminate. }
  split; [exact H|].
  exact (search_papers_only_logs [paper1; paper2] [["graph"]] true true
           world1 (world_with world1 [paper3]) H).
Defined.

(** ** Reading the history file *)

Lemma load_sent_papers_absent fs history_file log :
  fs history_file = Absent →
  load_sent_papers fs history_file log = (Returns ∅, log).
Proof. unfold load_sent_papers. by intros ->. Qed.

Lemma load_sent_papers_unreadable fs history_file log e :
  fs history_file = Unreadable e ∨ fs history_file = NotJson e →
  load_sent_papers fs history_file log
  = (Returns ∅, log ++ [error ("Error loading history file: " +:+ e)]).
Proof. unfold load_sent_papers. by intros [-> | ->]. Qed.

Lemma set_of_items_strings ids :
  set_of_items (JString <$> ids) = Returns (list_to_set (KStr <$> ids)).
Proof.
  induction ids as [|x ids IH]; [done|].
  rewrite !fmap_cons. cbn [set_of_items hashable]. by rewrite IH.
Qed.

Lemma load_sent_papers_strings fs history_file log ids :
  fs history_file = Json (JObject [("sent_papers", JArray (JString <$> ids))]) →
  load_sent_papers fs history_file log
  = (Returns (list_to_set (KStr <$> ids)), log).
Proof.
  unfold load_sent_papers. intros ->. simpl.
  by rewrite set_of_items_strings.
Qed.

(** C6.  A history file whose JSON text is not an object makes
    [load_sent_papers] raise: on the text of an empty array the call ends
    with AttributeError instead of returning a set. *)
Theorem load_sent_papers_raises :
  load_sent_papers fs_array "sent_papers.json" []
  = (Raises AttributeError, []).
Proof. reflexivity. Qed.

(** ** Writing the history file *)

Lemma is_substring_app_l k s a : is_substring k s → is_substring k (a +:+ s).
Proof.
  intros H. rewrite <-(append_nil_r s). by apply is_substring_app.
Qed.

Lemma is_substring_app_r k s b : is_substring k s → is_substring k (s +:+ b).
Proof. intros H. by apply (is_substring_app k s ""). Qed.

Lemma encode_items_cons x y rest :
  encode_items (x :: y :: rest)
  = encode_string x +:+ "," +:+ nl "    " +:+ encode_items (y :: rest).
Proof. reflexivity. Qed.

Lemma encode_items_member x items :
  x ∈ items → is_substring (encode_string x) (encode_items items).
Proof.
  induction items as [|y items IH]; [by intros ?%elem_of_nil|].
  intros [->|Hx]%elem_of_cons.
  - destruct items as [|z rest]; [apply is_substring_refl|].
    rewrite encode_items_cons. apply is_substring_app_r, is_substring_refl.
  - destruct items as [|z rest]; [by apply elem_of_nil in Hx|].
    rewrite encode_items_cons. do 3 apply is_substring_app_l. by apply IH.
Qed.

Lemma encode_list_member x items :
  x ∈ items → is_substring (encode_string x) (encode_list items).
Proof.
  intros Hx. destruct items as [|y items]; [by apply elem_of_nil in Hx|].
  unfold encode_list. do 2 apply is_substring_app_l.
  by apply is_substring_app_r, encode_items_member.
Qed.

(** The document holds every identifier it is given and the timestamp. *)
Lemma dump_history_member x items last_updated :
  x ∈ items → is_substring (encode_string x) (dump_history items last_updated).
Proof.
  intros Hx. unfold dump_history. do 4 apply is_substring_app_l.
  by apply is_substring_app_r, encode_list_member.
Qed.

Lemma dump_history_timestamp items last_updated :
  is_substring (encode_string last_updated) (dump_history items last_updated).
Proof.
  unfold dump_history. do 9 apply is_substring_app_l.
  apply is_substring_app_r, is_substring_refl.
Qed.

Lemma string_take_prefix n s : ∃ v, s = string_take n s +:+ v.
Proof.
  revert s. induction n as [|n IH]; intros [|c s]; simpl; try by eexists.
  destruct (IH s) as [v Hv]. exists v. by rewrite append_cons, <-Hv.
Qed.

(** A write that fails after the file was opened: the call returns, the
    error is logged, and the history that was on disk is gone. *)
Lemma save_sent_papers_not_atomic :
  save_sent_papers env_full {["2401.00001v1"; "2401.00002v1"]} disk_before []
  = (Returns (), {| dir_exists := true; content := Some "" |},
     [save_error "[Errno 28] No space left on device"])
  ∧ Some "" ≠ content disk_before.
Proof. split; [by vm_compute|discriminate]. Qed.

Lemma open_error_cases (o : option (exn * string)) :
  o = None ∨ (∃ e, o = Some (OSError, e))
  ∨ ∃ kind e, o = Some (kind, e) ∧ kind ≠ OSError.
Proof.
  destruct o as [[kind e]|]; [|by left]. right.
  destruct (decide (kind = OSError)) as [->|?]; by eauto.
Qed.

(** What [write_history] does, case by case. *)
Lemma write_history_cases env sent d log :
  let doc := dump_history (set_list env sent) (now env) in
  let '(r, d', log') := write_history env sent d log in
  ((∀ kind e, open_error env = Some (kind, e) → kind = OSError) →
   r = Returns ())
  ∧ (write_succeeds env doc →
     r = Returns () ∧ content d' = Some doc ∧ log' = log)
  ∧ (∀ e, open_error env = Some (OSError, e) →
       r = Returns () ∧ d' = d ∧ log' = log ++ [save_error e])
  ∧ (∀ n e, open_error env = None → write_error env = Some (n, e) →
       n < String.length doc →
       r = Returns () ∧ content d' = Some (string_take n doc)
       ∧ log' = log ++ [save_error e])
  ∧ (∀ kind e, open_error env = Some (kind, e) → kind ≠ OSError →
       r = Raises kind ∧ d' = d ∧ log' = log).
Proof.
  intros doc. unfold write_history, write_succeeds. fold doc. clearbody doc.
  destruct (open_error_cases (open_error env))
    as [Hopen|[[e Hopen]|(kind & e & Hopen & Hkind)]]; rewrite Hopen.
  - destruct (write_error env) as [[n e]|]; [|by split_and!].
    destruct (n <? String.length doc) eqn:Hn.
    + apply Nat.ltb_lt in Hn. split_and!; try done.
      * intros [_ Hle]. specialize (Hle n e eq_refl). lia.
      * by intros ?? _ [= <- <-] _.
    + apply Nat.ltb_ge in Hn. split_and!; try done.
      intros ?? _ [= <- <-] ?. lia.
  - split_and!; try done.
    + by intros [[=] _].
    + by intros ? [= <-].
    + by intros ?? [= <- _] ?.
  - assert (match kind with
            | OSError => (Returns (), d, log ++ [save_error e])
            | _ => (Raises kind, d, log)
            end = (Raises kind, d, log)) as -> by (by destruct kind).
    split_and!; try done.
    + intros Hall. by destruct (Hkind (Hall kind e eq_refl)).
    + by intros [[=] _].
    + intros ? [= -> _]. by destruct Hkind.
    + by intros ?? [= <- _] _.
Qed.

(** C7, as the code has it.  When the directory is there or can be made and
    [open] raises nothing but IOError, [save_sent_papers] returns normally;
    the document it writes holds every member of the seen set, in the order
    [list] gives them, and the timestamp of the write; a write that goes
    through leaves exactly that document in the file; a failure to open the
    file is logged and leaves the file as it was; a failure during the write
    is logged and leaves the part of the new document written so far, the
    previous content being lost. *)
Theorem save_sent_papers_write env sent d log :
  history_dir env = "" ∨ dir_exists d = true ∨ makedirs_error env = None →
  (∀ kind e, open_error env = Some (kind, e) → kind = OSError) →
  lists_members env sent →
  let doc := dump_history (set_list env sent) (now env) in
  let '(r, d', log') := save_sent_papers env sent d log in
  r = Returns ()
  ∧ (∀ x, x ∈ sent → is_substring (encode_string x) doc)
  ∧ is_substring (encode_string (now env)) doc
  ∧ (write_succeeds env doc → content d' = Some doc ∧ log' = log)
  ∧ (∀ e, open_error env = Some (OSError, e) →
       content d' = content d ∧ log' = log ++ [save_error e])
  ∧ (∀ n e, open_error env = None → write_error env = Some (n, e) →
       n < String.length doc →
       content d' = Some (string_take n doc) ∧ log' = log ++ [save_error e]).
Proof.
  intros Hdir Hio Hlist doc.
  assert (∀ x, x ∈ sent → is_substring (encode_string x) doc) as Hall.
  { intros x Hx. apply dump_history_member.
    unfold lists_members in Hlist. rewrite Hlist. by apply elem_of_elements. }
  pose proof (dump_history_timestamp (set_list env sent) (now env)) as Hts.
  assert (∀ d0, content d0 = content d →
    let '(r, d', log') := write_history env sent d0 log in
    r = Returns ()
    ∧ (∀ x, x ∈ sent → is_substring (encode_string x) doc)
    ∧ is_substring (encode_string (now env)) doc
    ∧ (write_succeeds env doc → content d' = Some doc ∧ log' = log)
    ∧ (∀ e, open_error env = Some (OSError, e) →
         content d' = content d ∧ log' = log ++ [save_error e])
    ∧ (∀ n e, open_error env = None → write_error env = Some (n, e) →
         n < String.length doc →
         content d' = Some (string_take n doc)
         ∧ log' = log ++ [save_error e])) as Hwrite.
  { intros d0 Hd0. pose proof (write_history_cases env sent d0 log) as H.
    fold doc in H. simpl in H.
    destruct (write_history env sent d0 log) as [[r d'] log'].
    destruct H as (Hr & Hok & Hopen & Hwr & _).
    split; [by apply Hr|]. split; [done|]. split; [done|].
    split; [intros Hs; by destruct (Hok Hs) as (_ & ? & ?)|].
    split.
    - intros e He. destruct (Hopen e He) as (_ & -> & ->). by rewrite Hd0.
    - intros n e H1 H2 H3. by destruct (Hwr n e H1 H2 H3) as (_ & ? & ?). }
  unfold save_sent_papers.
  destruct (bool_decide (history_dir env ≠ "") && negb (dir_exists d))
    eqn:Hmk.
  - apply andb_true_iff in Hmk as [Hne%bool_decide_eq_true Hex%negb_true_iff].
    destruct Hdir as [?|[?|Hm]]; [done|congruence|]. rewrite Hm.
    exact (Hwrite {| dir_exists := true; content := content d |} eq_refl).
  - exact (Hwrite d eq_refl).
Qed.

Lemma save_sent_papers_write_witness :
  (history_dir env_ok = "" ∨ dir_exists disk_before = true
   ∨ makedirs_error env_ok = None)
  ∧ (∀ kind e, open_error env_ok = Some (kind, e) → kind = OSError)
  ∧ lists_members env_ok {["2401.00002v1"; "2401.00001v1"]}
  ∧ let doc :=
      dump_history (set_list env_ok {["2401.00002v1"; "2401.00001v1"]})
        (now env_ok) in
    let '(r, d', log') :=
      save_sent_papers env_ok {["2401.00002v1"; "2401.00001v1"]}
        disk_before [] in
    r = Returns ()
    ∧ (∀ x, x ∈ ({["2401.00002v1"; "2401.00001v1"]} : gset string) →
         is_substring (encode_string x) doc)
    ∧ is_substring (encode_string (now env_ok)) doc
    ∧ (write_succeeds env_ok doc → content d' = Some doc ∧ log' = [])
    ∧ (∀ e, open_error env_ok = Some (OSError, e) →
         content d' = content disk_before ∧ log' = [] ++ [save_error e])
    ∧ (∀ n e, open_error env_ok = None → write_error env_ok = Some (n, e) →
         n < String.length doc →
         content d' = Some (string_take n doc)
         ∧ log' = [] ++ [save_error e]).
Proof.
  assert (history_dir env_ok = "" ∨ dir_exists disk_before = true
          ∨ makedirs_error env_ok = None) as H1 by (right; left; reflexivity).
  assert (∀ kind e, open_error env_ok = Some (kind, e) → kind = OSError)
    as H2 by (intros kind e [=]).
  assert (lists_members env_ok {["2401.00002v1"; "2401.00001v1"]}) as H3
    by apply reverse_Permutation.
  split; [exact H1|]. split; [exact H2|]. split; [exact H3|].
  exact (save_sent_papers_write env_ok {["2401.00002v1"; "2401.00001v1"]}
           disk_before [] H1 H2 H3).
Defined.

(** * Further properties *)

(** ** [search_papers]: how the result depends on its arguments *)

Lemma lower_app s t : lower (s +:+ t) = lower s +:+ lower t.
Proof.
  induction s as [|a s IH]; [done|].
  rewrite append_cons. simpl. by rewrite IH, append_cons.
Qed.

Lemma is_substring_lower k s : is_substring k s → is_substring (lower k) (lower s).
Proof. intros (u & v & ->). exists (lower u), (lower v). by rewrite !lower_app. Qed.

Lemma is_substring_trans k s t :
  is_substring k s → is_substring s t → is_substring k t.
Proof. intros Hks (u & v & ->). by apply is_substring_app. Qed.

Lemma selects_true kgs st sa sent p :
  selects kgs st sa sent p ↔
  (paper_id p ∉ sent) ∧ (st || sa) = true
  ∧ ∃ g, g ∈ kgs ∧ group_satisfied (search_text st sa p) g.
Proof. by rewrite Is_true_true, selects_spec. Qed.

(** X1.  Each paper is judged by itself: the result for two lists put end
    to end is the two results put end to end. *)
Theorem search_papers_app ps1 ps2 kgs st sa w :
  (search_papers (ps1 ++ ps2) kgs st sa w).1
  = (search_papers ps1 kgs st sa w).1 ++ (search_papers ps2 kgs st sa w).1.
Proof. rewrite !search_papers_result. apply filter_app. Qed.

Lemma group_satisfied_same text g g' :
  same_keywords g g' → group_satisfied text g ↔ group_satisfied text g'.
Proof.
  intros Hg. split; intros Hsat k Hk; apply Hsat; by apply Hg.
Qed.

(** X2.  The order of the groups, the order of the keywords inside a group
    and repetitions of groups or of keywords do not matter: rule sets with
    the same groups return the same papers. *)
Theorem search_papers_same_rules ps kgs kgs' st sa w :
  same_rules kgs kgs' →
  (search_papers ps kgs st sa w).1 = (search_papers ps kgs' st sa w).1.
Proof.
  intros [H1 H2]. rewrite !search_papers_result.
  apply list_filter_iff. intros p. rewrite !selects_true.
  split; intros (Hid & Hscope & g & Hg & Hsat);
    (split; [done|]; split; [done|]).
  - destruct (H1 g Hg) as (g' & Hg' & Hsame). exists g'. split; [done|].
    by apply (group_satisfied_same _ _ _ Hsame).
  - destruct (H2 g Hg) as (g' & Hg' & Hsame). exists g'. split; [done|].
    by apply (group_satisfied_same _ _ _ Hsame).
Qed.

Lemma search_papers_same_rules_witness :
  same_rules [["deep"; "learning"; "deep"]; ["graph"]]
    [["graph"]; ["learning"; "deep"]; ["graph"]]
  ∧ (search_papers [paper1; paper2] [["deep"; "learning"; "deep"]; ["graph"]]
       true true world0).1
    = (search_papers [paper1; paper2]
         [["graph"]; ["learning"; "deep"]; ["graph"]] true true world0).1.
Proof.
  assert (same_keywords ["deep"; "learning"; "deep"] ["learning"; "deep"])
    as Hdl.
  { intros k. rewrite !elem_of_cons, !elem_of_nil. tauto. }
  assert (same_keywords ["graph"] ["graph"]) as Hg by done.
  assert (same_rules [["deep"; "learning"; "deep"]; ["graph"]]
            [["graph"]; ["learning"; "deep"]; ["graph"]]) as H.
  { split; intros g Hin.
    - apply elem_of_cons in Hin as [->|Hin].
      { exists ["learning"; "deep"]. split; [right; left|exact Hdl]. }
      apply list_elem_of_singleton in Hin as ->.
      exists ["graph"]. split; [left|exact Hg].
    - apply elem_of_cons in Hin as [->|Hin].
      { exists ["graph"]. split; [right; left|exact Hg]. }
      apply elem_of_cons in Hin as [->|Hin].
      { exists ["deep"; "learning"; "deep"]. split; [left|exact Hdl]. }
      apply list_elem_of_singleton in Hin as ->.
      exists ["graph"]. split; [right; left|exact Hg]. }
  split; [exact H|].
  exact (search_papers_same_rules [paper1; paper2] _ _ true true world0 H).
Defined.

Lemma filter_implies_sublist {A} (P Q : A → Prop)
    `{!∀ x, Decision (P x), !∀ x, Decision (Q x)} (l : list A) :
  (∀ x, x ∈ l → P x → Q x) → filter P l `sublist_of` filter Q l.
Proof.
  induction l as [|x l IH]; intros HPQ; [done|].
  assert (filter P l `sublist_of` filter Q l) as Hl.
  { apply IH. intros y Hy. apply HPQ. by right. }
  rewrite !filter_cons. destruct (decide (P x)) as [HP|HP].
  - rewrite decide_True by (apply HPQ; [left|done]). by apply sublist_skip.
  - destruct (decide (Q x)); [by apply sublist_cons|done].
Qed.

(** X3.  Rules that ask less match more: when every group has a counterpart
    whose keywords are each, up to case, part of one of its keywords, every
    paper returned under the first rules is returned under the second, in
    the same order.  Adding a group, dropping a keyword from a group and
    shortening a keyword are instances. *)
Theorem search_papers_weaker_rules ps kgs kgs' st sa w :
  weaker_rules kgs kgs' →
  (search_papers ps kgs st sa w).1
  `sublist_of` (search_papers ps kgs' st sa w).1.
Proof.
  intros Hweak. rewrite !search_papers_result.
  apply filter_implies_sublist. intros p _. rewrite !selects_true.
  intros (Hid & Hscope & g & Hg & Hsat). split; [done|]. split; [done|].
  destruct (Hweak g Hg) as (g' & Hg' & Hless). exists g'. split; [done|].
  intros k' Hk'. destruct (Hless k' Hk') as (k & Hk & Hpart).
  eauto using is_substring_trans.
Qed.

Lemma search_papers_weaker_rules_witness :
  weaker_rules [["Deep Learning"; "robot"]] [["graph"]; ["LEARN"]]
  ∧ (search_papers [paper1; paper2] [["Deep Learning"; "robot"]]
       true true world0).1
    `sublist_of`
    (search_papers [paper1; paper2] [["graph"]; ["LEARN"]]
       true true world0).1.
Proof.
  assert (weaker_rules [["Deep Learning"; "robot"]] [["graph"]; ["LEARN"]])
    as H.
  { intros g Hg. apply list_elem_of_singleton in Hg as ->.
    exists ["LEARN"]. split; [right; left|].
    intros k' Hk'. apply list_elem_of_singleton in Hk' as ->.
    exists "Deep Learning". split; [left|]. by exists "deep ", "ing". }
  split; [exact H|].
  exact (search_papers_weaker_rules [paper1; paper2] _ _ true true world0 H).
Defined.

(** X4.  A larger seen set only removes papers: the result against the
    larger set is the result against the smaller one without the papers
    whose identifier the larger set holds. *)
Theorem search_papers_more_seen ps kgs st sa w w' sent sent' :
  sent_papers w = Some sent → sent_papers w' = Some sent' → sent ⊆ sent' →
  (search_papers ps kgs st sa w').1
  = filter (λ p, paper_id p ∉ sent') (search_papers ps kgs st sa w).1.
Proof.
  intros Hw Hw' Hsub. rewrite !search_papers_result, list_filter_filter.
  unfold seen. rewrite Hw, Hw'. simpl.
  apply list_filter_iff. intros p. rewrite !selects_true. split.
  - intros (Hid & Hscope & Hg). split; [done|]. split; [|done].
    intros Hin. by apply Hid, Hsub.
  - by intros (Hid & _ & Hscope & Hg).
Qed.

Lemma search_papers_more_seen_witness :
  sent_papers world0 = Some ∅ ∧ sent_papers world1 = Some {["1"]}
  ∧ (∅ : gset string) ⊆ {["1"]}
  ∧ (search_papers [paper1; paper2] [[]] true true world1).1
    = filter (λ p, paper_id p ∉ ({["1"]} : gset string))
        (search_papers [paper1; paper2] [[]] true true world0).1.
Proof.
  assert ((∅ : gset string) ⊆ {["1"]}) as H by apply empty_subseteq.
  split; [reflexivity|]. split; [reflexivity|]. split; [exact H|].
  exact (search_papers_more_seen [paper1; paper2] [[]] true true
           world0 world1 ∅ {["1"]} eq_refl eq_refl H).
Defined.

Lemma search_text_both_l p k :
  is_substring k (search_text true false p) →
  is_substring k (search_text true true p).
Proof.
  change (search_text true false p) with (lower (paper_title p) +:+ " ").
  change (search_text true true p)
    with ((lower (paper_title p) +:+ " ") +:+ lower (paper_abstract p)).
  apply is_substring_app_r.
Qed.

Lemma search_text_both_r p k :
  is_substring k (search_text false true p) →
  is_substring k (search_text true true p).
Proof.
  change (search_text false true p) with (lower (paper_abstract p)).
  change (search_text true true p)
    with ((lower (paper_title p) +:+ " ") +:+ lower (paper_abstract p)).
  apply is_substring_app_l.
Qed.

(** X5.  Searching more fields never loses a paper: what is returned with a
    scope is returned, in the same order, with any scope that has at least
    the same fields. *)
Theorem search_papers_wider_scope ps kgs st sa st' sa' w :
  (st = true → st' = true) → (sa = true → sa' = true) →
  (search_papers ps kgs st sa w).1
  `sublist_of` (search_papers ps kgs st' sa' w).1.
Proof.
  intros Ht Ha. rewrite !search_papers_result.
  apply filter_implies_sublist. intros p _. rewrite !selects_true.
  intros (Hid & Hscope & g & Hg & Hsat). split; [done|].
  destruct st, sa; try done;
    rewrite ?(Ht eq_refl), ?(Ha eq_refl); [by eauto| |].
  - destruct sa'; [|by eauto]. split; [done|]. exists g. split; [done|].
    intros k Hk. by apply search_text_both_l, Hsat.
  - destruct st'; [|by eauto]. split; [done|]. exists g. split; [done|].
    intros k Hk. by apply search_text_both_r, Hsat.
Qed.

Lemma search_papers_wider_scope_witness :
  (true = true → true = true) ∧ (false = true → true = true)
  ∧ (search_papers [paper1; paper2] [["graph"]; ["study"]] true false
       world0).1
    `sublist_of`
    (search_papers [paper1; paper2] [["graph"]; ["study"]] true true
       world0).1.
Proof.
  split; [exact (λ _, eq_refl)|]. split; [exact (λ _, eq_refl)|].
  exact (search_papers_wider_scope [paper1; paper2] [["graph"]; ["study"]]
           true false true true world0 (λ _, eq_refl) (λ _, eq_refl)).
Defined.

Lemma search_papers_result_seen ps kgs st sa w sent :
  seen w = sent →
  (search_papers ps kgs st sa w).1
  = filter (λ p, selects kgs st sa sent p) ps.
Proof. intros <-. apply search_papers_result. Qed.

Lemma search_papers_none_left ps kgs st sa w w' :
  sent_papers w'
  = Some (seen w ∪ list_to_set (paper_id <$> (search_papers ps kgs st sa w).1)) →
  (search_papers ps kgs st sa w').1 = [].
Proof.
  rewrite (search_papers_result ps kgs st sa w).
  set (ids := list_to_set _). intros Hw'.
  assert (seen w' = seen w ∪ ids) as Hs by (unfold seen at 1; by rewrite Hw').
  rewrite (search_papers_result_seen ps kgs st sa w' _ Hs).
  assert (∀ l, (∀ p, p ∈ l → p ∈ ps) →
            filter (λ p, selects kgs st sa (seen w ∪ ids) p) l = []) as Hall.
  { induction l as [|p l IH]; intros Hl; [done|].
    rewrite filter_cons_False; [apply IH; intros q Hq; apply Hl; by right|].
    rewrite selects_true. intros (Hid & Hscope & Hg). apply Hid.
    destruct (decide (paper_id p ∈ seen w)) as [?|Hnew];
      [by apply elem_of_union_l|].
    apply elem_of_union_r, elem_of_list_to_set, list_elem_of_fmap.
    exists p. split; [done|].
    apply list_elem_of_filter. split; [by apply selects_true|].
    apply Hl. by left. }
  by apply Hall.
Qed.

(** X6.  Once the returned identifiers are in the seen set, the same search
    returns nothing: no paper is returned twice. *)
Theorem search_papers_again ps kgs st sa w w' :
  sent_papers w'
  = Some (seen w ∪ list_to_set (paper_id <$> (search_papers ps kgs st sa w).1)) →
  (search_papers ps kgs st sa w').1 = [].
Proof. apply search_papers_none_left. Qed.

Lemma search_papers_again_witness :
  sent_papers
    (world_with world1
       (search_papers [paper1; paper2] [[]] true true world1).1)
  = Some (seen world1 ∪ list_to_set
            (paper_id <$> (search_papers [paper1; paper2] [[]] true true
                             world1).1))
  ∧ (search_papers [paper1; paper2] [[]] true true
       (world_with world1
          (search_papers [paper1; paper2] [[]] true true world1).1)).1 = [].
Proof.
  split; [reflexivity|].
  exact (search_papers_again [paper1; paper2] [[]] true true world1
           (world_with world1
              (search_papers [paper1; paper2] [[]] true true world1).1)
           eq_refl).
Defined.

(** ** The history file: more on reading and writing *)

Lemma dict_get_missing key members d :
  key ∉ members.*1 → dict_get key members d = d.
Proof.
  revert d. induction members as [|[k v] members IH]; intros d Hkey; [done|].
  apply not_elem_of_cons in Hkey as [Hne Hkey]. simpl.
  rewrite decide_False by done. by apply IH.
Qed.

(** X7.  A history file that is a JSON object without the key
    [sent_papers] reads as the empty set, and nothing is logged. *)
Theorem load_sent_papers_missing_key fs history_file log members :
  fs history_file = Json (JObject members) →
  "sent_papers" ∉ members.*1 →
  load_sent_papers fs history_file log = (Returns ∅, log).
Proof.
  intros Hfs Hkey. unfold load_sent_papers. rewrite Hfs.
  by rewrite dict_get_missing.
Qed.

Lemma load_sent_papers_missing_key_witness :
  (λ _ : string, Json (JObject [("last_updated", JString "2024")]))
    "sent_papers.json"
  = Json (JObject [("last_updated", JString "2024")])
  ∧ ("sent_papers" ∉ [("last_updated", JString "2024")].*1)
  ∧ load_sent_papers
      (λ _, Json (JObject [("last_updated", JString "2024")]))
      "sent_papers.json" []
    = (Returns ∅, []).
Proof.
  assert ("sent_papers" ∉ [("last_updated", JString "2024")].*1) as H.
  { intros Hin. apply list_elem_of_singleton in Hin. discriminate. }
  split; [reflexivity|]. split; [exact H|].
  exact (load_sent_papers_missing_key
           (λ _, Json (JObject [("last_updated", JString "2024")]))
           "sent_papers.json" [] _ eq_refl H).
Defined.

(** X8.  Reading back what was saved: when the history file parses to the
    dictionary [save_sent_papers] builds from a set, [load_sent_papers]
    returns, without logging, a set whose members are exactly the
    identifiers of that set. *)
Theorem load_sent_papers_saved fs history_file log (sent : gset string)
    last_updated :
  fs history_file = Json (history_value (elements sent) last_updated) →
  ∃ s, load_sent_papers fs history_file log = (Returns s, log)
       ∧ ∀ k, k ∈ s ↔ ∃ x, k = KStr x ∧ x ∈ sent.
Proof.
  intros Hfs. unfold load_sent_papers, history_value in *. rewrite Hfs.
  cbn [dict_get].
  rewrite decide_False by discriminate. rewrite decide_True by done.
  cbn [py_set]. rewrite set_of_items_strings. eexists. split; [done|].
  intros k. rewrite elem_of_list_to_set, list_elem_of_fmap.
  by setoid_rewrite elem_of_elements.
Qed.

Lemma load_sent_papers_saved_witness :
  (λ _ : string,
     Json (history_value (elements ({["2401.00001v1"]} : gset string))
             "2024-05-02T09:00:00")) "sent_papers.json"
  = Json (history_value (elements ({["2401.00001v1"]} : gset string))
            "2024-05-02T09:00:00")
  ∧ ∃ s, load_sent_papers
           (λ _, Json (history_value
                         (elements ({["2401.00001v1"]} : gset string))
                         "2024-05-02T09:00:00"))
           "sent_papers.json" [] = (Returns s, [])
         ∧ ∀ k, k ∈ s ↔
                ∃ x, k = KStr x ∧ x ∈ ({["2401.00001v1"]} : gset string).
Proof.
  split; [reflexivity|].
  exact (load_sent_papers_saved
           (λ _, Json (history_value
                         (elements ({["2401.00001v1"]} : gset string))
                         "2024-05-02T09:00:00"))
           "sent_papers.json" [] {["2401.00001v1"]} "2024-05-02T09:00:00"
           eq_refl).
Defined.

Lemma write_history_prefix env sent d log :
  let '(r, d', log') := write_history env sent d log in
  (content d' = content d
   ∨ ∃ t v, content d' = Some t
            ∧ dump_history (set_list env sent) (now env) = t +:+ v)
  ∧ (log' = log ∨ ∃ e, log' = log ++ [save_error e]).
Proof.
  unfold write_history. set (doc := dump_history _ _).
  destruct (open_error env) as [[[] e]|]; try by eauto.
  assert (∃ t v, Some doc = Some t ∧ doc = t +:+ v) as Hall.
  { exists doc, "". by rewrite append_nil_r. }
  destruct (write_error env) as [[n e]|]; [|by eauto].
  destruct (n <? String.length doc); [|by eauto]. simpl. split; [|by eauto].
  right. destruct (string_take_prefix n doc) as [v Hv]. by eauto.
Qed.

(** X9.  Whatever errors are reported, after [save_sent_papers] the history
    file either holds what it held before or holds the beginning of the new
    document, with the members in the order [list] gives them (possibly all
    of the document, possibly nothing); and the call logs nothing or one
    error record. *)
Theorem save_sent_papers_prefix env sent d log :
  let '(r, d', log') := save_sent_papers env sent d log in
  (content d' = content d
   ∨ ∃ t v, content d' = Some t
            ∧ dump_history (set_list env sent) (now env) = t +:+ v)
  ∧ (log' = log ∨ ∃ e, log' = log ++ [save_error e]).
Proof.
  unfold save_sent_papers.
  destruct (bool_decide _ && negb _).
  - destruct (makedirs_error env) as [[kind e]|]; [by auto|].
    apply (write_history_prefix env sent
             {| dir_exists := true; content := content d |} log).
  - apply write_history_prefix.
Qed.

(** X10.  [os.makedirs] is called outside the [try] block and
    [except IOError] catches OSError only: an exception from [os.makedirs]
    when the directory is missing, and an exception from [open] that is not
    an OSError, leave [save_sent_papers]; whenever the call raises, the
    content of the file and the log are as they were.  An OSError from
    [open] or from the write never leaves the call. *)
Theorem save_sent_papers_raises env sent d log :
  let missing := bool_decide (history_dir env ≠ "") && negb (dir_exists d) in
  let '(r, d', log') := save_sent_papers env sent d log in
  (∀ kind e, missing = true → makedirs_error env = Some (kind, e) →
     r = Raises kind)
  ∧ (∀ kind e, (missing = true → makedirs_error env = None) →
       open_error env = Some (kind, e) → kind ≠ OSError → r = Raises kind)
  ∧ (∀ kind, r = Raises kind → content d' = content d ∧ log' = log)
  ∧ ((missing = true → makedirs_error env = None) →
     (∀ kind e, open_error env = Some (kind, e) → kind = OSError) →
     r = Returns ()).
Proof.
  intros missing. unfold save_sent_papers. fold missing.
  assert (∀ d0, content d0 = content d →
    let '(r, d', log') := write_history env sent d0 log in
    (∀ kind e, open_error env = Some (kind, e) → kind ≠ OSError →
       r = Raises kind)
    ∧ (∀ kind, r = Raises kind → content d' = content d ∧ log' = log)
    ∧ ((∀ kind e, open_error env = Some (kind, e) → kind = OSError) →
       r = Returns ())) as Hwrite.
  { intros d0 Hd0. pose proof (write_history_cases env sent d0 log) as H.
    simpl in H. destruct (write_history env sent d0 log) as [[r d'] log'].
    destruct H as (Hr & Hok & Hio & Hwr & Hraise). split_and!; [| |done].
    { intros kind e H1 H2. by destruct (Hraise kind e H1 H2). }
    intros kind ->.
    destruct (open_error_cases (open_error env))
      as [Hopen|[[e Hopen]|(kind' & e & Hopen & Hkind)]].
    - by specialize (Hr ltac:(by intros ??; rewrite Hopen)).
    - by destruct (Hio e Hopen) as ([=] & _).
    - destruct (Hraise kind' e Hopen Hkind) as (_ & -> & ->). by rewrite Hd0. }
  destruct missing.
  - destruct (makedirs_error env) as [[kind e]|].
    + split_and!;
        first [ done
              | by intros ?? _ [= <- _]
              | by intros ?? Hm; specialize (Hm eq_refl)
              | by intros Hm; specialize (Hm eq_refl)
              | by intros ? [= <-] ].
    + specialize (Hwrite {| dir_exists := true; content := content d |}
                    eq_refl).
      destruct (write_history _ _ _ _) as [[r d'] log'].
      destruct Hwrite as (H1 & H2 & H3).
      split_and!;
        first [ done | by intros ?? [=] | by intros ?? _; apply H1
              | by intros _; apply H3 ].
  - specialize (Hwrite d eq_refl).
    destruct (write_history _ _ _ _) as [[r d'] log'].
    destruct Hwrite as (H1 & H2 & H3).
    split_and!;
      first [ done | by intros ?? [=] | by intros ?? _; apply H1
            | by intros _; apply H3 ].
Qed.

(** ** [main]: searching, notifying, recording *)

Lemma add_ids_spec matched sent :
  add_ids matched sent = sent ∪ list_to_set (paper_id <$> matched).
Proof.
  revert sent. induction matched as [|p matched IH]; intros sent.
  - simpl. by rewrite union_empty_r_L.
  - cbn [add_ids]. rewrite IH, fmap_cons, list_to_set_cons.
    by rewrite (comm_L (∪) {[paper_id p]} sent), (assoc_L (∪)).
Qed.

Lemma main_unfold papers kgs st sa dry_run send env s :
  main_search_and_notify papers kgs st sa dry_run send env s
  = notify_and_record
      (search_papers papers kgs st sa
         {| sent_papers := Some (st_sent s); log := st_log s |}).1
      dry_run send env s
      (log (search_papers papers kgs st sa
              {| sent_papers := Some (st_sent s); log := st_log s |}).2).
Proof. reflexivity. Qed.

(** X11.  Without a mail that went out, the history is left alone: in a dry
    run, and when [send_email] returns False or raises, [main] ends with the
    seen set and the history file it started with. *)
Theorem main_history_untouched papers kgs st sa dry_run send env s :
  dry_run = true ∨ (∀ records, send ≠ SendReturns true records) →
  let '(code, s') :=
    main_search_and_notify papers kgs st sa dry_run send env s in
  st_sent s' = st_sent s ∧ st_disk s' = st_disk s.
Proof.
  intros Hno. rewrite main_unfold. unfold notify_and_record.
  destruct (search_papers _ _ _ _ _).1 as [|p matched]; [done|].
  destruct dry_run; [done|]. destruct Hno as [?|Hno]; [done|].
  destruct send as [[|] records|e]; [|done..].
  by destruct (Hno records).
Qed.

Lemma main_history_untouched_witness :
  (false = true ∨ ∀ records, SendReturns false [] ≠ SendReturns true records)
  ∧ let '(code, s') :=
      main_search_and_notify [paper1; paper2] [["graph"]] true true false
        (SendReturns false []) env_ok state0 in
    st_sent s' = st_sent state0 ∧ st_disk s' = st_disk state0.
Proof.
  assert (false = true
          ∨ ∀ records, SendReturns false [] ≠ SendReturns true records) as H
    by (right; discriminate).
  split; [exact H|].
  exact (main_history_untouched [paper1; paper2] [["graph"]] true true false
           (SendReturns false []) env_ok state0 H).
Defined.

(** X12.  The seen set only grows, and only by notified papers: every
    identifier [main] adds is the identifier of a paper the search returned,
    in a run that is not a dry run and in which [send_email] returned True;
    in such a run the identifiers of all returned papers are added. *)
Theorem main_records_notified papers kgs st sa dry_run send env s :
  let matched :=
    (search_papers papers kgs st sa
       {| sent_papers := Some (st_sent s); log := st_log s |}).1 in
  let s' := (main_search_and_notify papers kgs st sa dry_run send env s).2 in
  st_sent s ⊆ st_sent s'
  ∧ (∀ x, x ∈ st_sent s' → x ∉ st_sent s →
       dry_run = false ∧ (∃ records, send = SendReturns true records)
       ∧ ∃ p, p ∈ matched ∧ paper_id p = x)
  ∧ (dry_run = false → (∃ records, send = SendReturns true records) →
       ∀ p, p ∈ matched → paper_id p ∈ st_sent s').
Proof.
  intros matched s'. subst s'. rewrite main_unfold. fold matched.
  clearbody matched. unfold notify_and_record.
  destruct matched as [|p matched].
  { simpl. split; [done|]. split; [done|]. by intros _ _ q ?%elem_of_nil. }
  destruct dry_run; [simpl; split; [done|]; split; [done|]; by intros [=]|].
  destruct send as [[|] records|e]; [|simpl; split; [done|]; split; [done|];
                                       by intros _ [? [=]]..].
  assert (st_sent s ⊆ add_ids (p :: matched) (st_sent s)
          ∧ (∀ x, x ∈ add_ids (p :: matched) (st_sent s) → x ∉ st_sent s →
               false = false ∧ (∃ r, SendReturns true records = SendReturns true r)
               ∧ ∃ q, q ∈ p :: matched ∧ paper_id q = x)
          ∧ (false = false →
             (∃ r, SendReturns true records = SendReturns true r) →
             ∀ q, q ∈ p :: matched →
                  paper_id q ∈ add_ids (p :: matched) (st_sent s))) as Hadd.
  { rewrite add_ids_spec. split; [apply union_subseteq_l|]. split.
    - intros x [?|Hx]%elem_of_union Hnew; [done|]. split; [done|].
      split; [by eauto|].
      apply elem_of_list_to_set, list_elem_of_fmap in Hx as (q & -> & Hq).
      by eauto.
    - intros _ _ q Hq.
      by apply elem_of_union_r, elem_of_list_to_set, list_elem_of_fmap_2. }
  by destruct (save_sent_papers _ _ _ _) as [[[?|?] ?] ?].
Qed.

Lemma main_sent_after papers kgs st sa send env s records :
  send = SendReturns true records →
  st_sent (main_search_and_notify papers kgs st sa false send env s).2
  = st_sent s
    ∪ list_to_set
        (paper_id <$>
         (search_papers papers kgs st sa
            {| sent_papers := Some (st_sent s); log := st_log s |}).1).
Proof.
  intros ->. rewrite main_unfold. unfold notify_and_record.
  destruct (search_papers _ _ _ _ _).1 as [|p matched].
  { simpl. by rewrite union_empty_r_L. }
  rewrite <-add_ids_spec.
  by destruct (save_sent_papers _ _ _ _) as [[[?|?] ?] ?].
Qed.

Lemma save_sent_papers_succeeds env sent d log :
  history_dir env = "" ∨ dir_exists d = true ∨ makedirs_error env = None →
  write_succeeds env (dump_history (set_list env sent) (now env)) →
  ∃ d', save_sent_papers env sent d log = (Returns (), d', log)
        ∧ content d' = Some (dump_history (set_list env sent) (now env)).
Proof.
  intros Hdir Hok.
  assert (∀ d0, ∃ d', write_history env sent d0 log = (Returns (), d', log)
            ∧ content d' = Some (dump_history (set_list env sent) (now env)))
    as Hw.
  { intros d0. pose proof (write_history_cases env sent d0 log) as H.
    simpl in H. destruct (write_history env sent d0 log) as [[r d'] log'].
    destruct H as (_ & H & _). destruct (H Hok) as (-> & ? & ->). by eauto. }
  unfold save_sent_papers.
  destruct (bool_decide _ && negb _) eqn:Hmk; [|apply Hw].
  apply andb_true_iff in Hmk as [Hne%bool_decide_eq_true Hex%negb_true_iff].
  destruct Hdir as [?|[?|Hm]]; [done|congruence|]. rewrite Hm. apply Hw.
Qed.

(** What [main] leaves after a run that announced papers and could write
    the history file. *)
Lemma main_after_success papers kgs st sa send env s records :
  send = SendReturns true records →
  (search_papers papers kgs st sa
     {| sent_papers := Some (st_sent s); log := st_log s |}).1 ≠ [] →
  history_dir env = "" ∨ dir_exists (st_disk s) = true
  ∨ makedirs_error env = None →
  open_error env = None → write_error env = None →
  ∃ s', main_search_and_notify papers kgs st sa false send env s = (0%Z, s')
        ∧ content (st_disk s')
          = Some (dump_history (set_list env (st_sent s')) (now env)).
Proof.
  intros -> Hsome Hdir Hopen Hwr.
  assert (∀ doc, write_succeeds env doc) as Hwrite.
  { intros doc. split; [done|]. intros n e. by rewrite Hwr. }
  rewrite main_unfold. unfold notify_and_record.
  destruct (search_papers _ _ _ _ _).1 as [|p matched]; [done|].
  match goal with
  | |- context [save_sent_papers env ?sent ?d ?l] =>
      destruct (save_sent_papers_succeeds env sent d l Hdir (Hwrite _))
        as (d' & Hsave & Hcontent)
  end.
  rewrite Hsave. by eauto.
Qed.

Lemma load_history_value fs history_file log items last_updated :
  fs history_file = Json (history_value items last_updated) →
  load_sent_papers fs history_file log
  = (Returns (list_to_set (KStr <$> items)), log).
Proof.
  intros Hfs. unfold load_sent_papers, history_value in *. rewrite Hfs.
  cbn [dict_get].
  rewrite decide_False by discriminate. rewrite decide_True by done.
  cbn [py_set]. by rewrite set_of_items_strings.
Qed.

Lemma elem_of_identifiers x s : x ∈ identifiers s ↔ KStr x ∈ s.
Proof.
  unfold identifiers. rewrite elem_of_list_to_set, list_elem_of_omap. split.
  - intros ([| |y] & Hy & [= <-]). by apply elem_of_elements.
  - intros Hx. exists (KStr x). split; [by apply elem_of_elements|done].
Qed.

Lemma identifiers_listed (sent : gset string) items :
  items ≡ₚ elements sent →
  identifiers (list_to_set (KStr <$> items)) = sent.
Proof.
  intros Hperm. apply set_eq. intros x.
  rewrite elem_of_identifiers, elem_of_list_to_set, list_elem_of_fmap.
  rewrite <-elem_of_elements, <-Hperm. split.
  - by intros (y & [= <-] & Hy).
  - intros Hx. by exists x.
Qed.

(** X13.  No paper is announced twice once the history is written: after a
    run that announced papers ([send_email] returned True) and could write
    the history file, the file holds the history document, and the next
    run, which starts from the seen set [load_sent_papers] reads back from
    it, finds nothing to send on the same papers, exits with 0 and leaves
    the seen set and the history file as they were. *)
Theorem main_next_run_idle papers kgs st sa send env s records :
  send = SendReturns true records →
  (search_papers papers kgs st sa
     {| sent_papers := Some (st_sent s); log := st_log s |}).1 ≠ [] →
  history_dir env = "" ∨ dir_exists (st_disk s) = true
  ∨ makedirs_error env = None →
  open_error env = None → write_error env = None →
  (∀ s0, lists_members env s0) →
  next_run_idle papers kgs st sa
    (st_disk (main_search_and_notify papers kgs st sa false send env s).2).
Proof.
  intros Hsend Hsome Hdir Hopen Hwr Hlist.
  pose proof (main_sent_after papers kgs st sa send env s records Hsend)
    as Hsent.
  destruct (main_after_success papers kgs st sa send env s records
              Hsend Hsome Hdir Hopen Hwr) as (s' & Hrun & Hcontent).
  rewrite Hrun in *. simpl in *.
  exists (set_list env (st_sent s')), (now env). split; [done|].
  intros fs history_file log1 Hfs.
  exists (list_to_set (KStr <$> set_list env (st_sent s'))).
  split; [by eapply load_history_value|].
  rewrite (identifiers_listed (st_sent s')) by apply Hlist.
  intros dry_run' send' env'.
  assert ((search_papers papers kgs st sa
             {| sent_papers := Some (st_sent s'); log := log1 |}).1 = [])
    as Hnone.
  { apply (search_papers_none_left papers kgs st sa
             {| sent_papers := Some (st_sent s); log := st_log s |}).
    simpl. by rewrite Hsent. }
  rewrite main_unfold. cbn [st_sent st_disk st_log]. rewrite Hnone.
  by unfold notify_and_record.
Qed.

Lemma main_next_run_idle_witness :
  SendReturns true [] = SendReturns true []
  ∧ (search_papers [paper1; paper2] [["graph"]] true true
       {| sent_papers := Some (st_sent state0); log := st_log state0 |}).1
    ≠ []
  ∧ (history_dir env_ok = "" ∨ dir_exists (st_disk state0) = true
     ∨ makedirs_error env_ok = None)
  ∧ open_error env_ok = None ∧ write_error env_ok = None
  ∧ (∀ s0, lists_members env_ok s0)
  ∧ next_run_idle [paper1; paper2] [["graph"]] true true
      (st_disk
         (main_search_and_notify [paper1; paper2] [["graph"]] true true
            false (SendReturns true []) env_ok state0).2).
Proof.
  assert ((search_papers [paper1; paper2] [["graph"]] true true
             {| sent_papers := Some (st_sent state0);
                log := st_log state0 |}).1 ≠ []) as H1
    by (vm_compute; discriminate).
  assert (history_dir env_ok = "" ∨ dir_exists (st_disk state0) = true
          ∨ makedirs_error env_ok = None) as H2 by (right; left; reflexivity).
  assert (∀ s0, lists_members env_ok s0) as H3
    by (intros s0; apply reverse_Permutation).
  split; [reflexivity|]. split; [exact H1|]. split; [exact H2|].
  split; [reflexivity|]. split; [reflexivity|]. split; [exact H3|].
  exact (main_next_run_idle [paper1; paper2] [["graph"]] true true
           (SendReturns true []) env_ok state0 [] eq_refl H1 H2
           eq_refl eq_refl H3).
Defined.

(** X14.  After a run in which papers matched, the mail went out and the
    history file could be opened and written, [main] exits with 0 and the
    history file holds the document of the seen set [main] ends with, its
    members in the order [list] gives them: every identifier of that set is
    in the file. *)
Theorem main_file_matches_memory papers kgs st sa send env s records :
  send = SendReturns true records →
  (search_papers papers kgs st sa
     {| sent_papers := Some (st_sent s); log := st_log s |}).1 ≠ [] →
  history_dir env = "" ∨ dir_exists (st_disk s) = true
  ∨ makedirs_error env = None →
  open_error env = None → write_error env = None →
  (∀ s0, lists_members env s0) →
  let '(code, s') :=
    main_search_and_notify papers kgs st sa false send env s in
  code = 0%Z
  ∧ ∃ doc, content (st_disk s') = Some doc
           ∧ doc = dump_history (set_list env (st_sent s')) (now env)
           ∧ ∀ x, x ∈ st_sent s' → is_substring (encode_string x) doc.
Proof.
  intros Hsend Hsome Hdir Hopen Hwr Hlist.
  destruct (main_after_success papers kgs st sa send env s records
              Hsend Hsome Hdir Hopen Hwr) as (s' & -> & Hcontent).
  split; [done|]. eexists. split; [done|]. split; [done|].
  intros x Hx. apply dump_history_member.
  rewrite (Hlist (st_sent s')). by apply elem_of_elements.
Qed.

Lemma main_file_matches_memory_witness :
  SendReturns true [] = SendReturns true []
  ∧ (search_papers [paper1; paper2] [["graph"]] true true
       {| sent_papers := Some (st_sent state0); log := st_log state0 |}).1
    ≠ []
  ∧ (history_dir env_ok = "" ∨ dir_exists (st_disk state0) = true
     ∨ makedirs_error env_ok = None)
  ∧ open_error env_ok = None ∧ write_error env_ok = None
  ∧ (∀ s0, lists_members env_ok s0)
  ∧ let '(code, s') :=
      main_search_and_notify [paper1; paper2] [["graph"]] true true false
        (SendReturns true []) env_ok state0 in
    code = 0%Z
    ∧ ∃ doc, content (st_disk s') = Some doc
             ∧ doc = dump_history (set_list env_ok (st_sent s'))
                       (now env_ok)
             ∧ ∀ x, x ∈ st_sent s' → is_substring (encode_string x) doc.
Proof.
  assert ((search_papers [paper1; paper2] [["graph"]] true true
             {| sent_papers := Some (st_sent state0);
                log := st_log state0 |}).1 ≠ []) as H1
    by (vm_compute; discriminate).
  assert (history_dir env_ok = "" ∨ dir_exists (st_disk state0) = true
          ∨ makedirs_error env_ok = None) as H2 by (right; left; reflexivity).
  assert (∀ s0, lists_members env_ok s0) as H3
    by (intros s0; apply reverse_Permutation).
  split; [reflexivity|]. split; [exact H1|]. split; [exact H2|].
  split; [reflexivity|]. split; [reflexivity|]. split; [exact H3|].
  exact (main_file_matches_memory [paper1; paper2] [["graph"]] true true
           (SendReturns true []) env_ok state0 [] eq_refl H1 H2
           eq_refl eq_refl H3).
Defined.

(** The order in which the process of [env_ok] writes the example set. *)
Example main_file_order :
  content
    (st_disk (main_search_and_notify [paper1; paper2] [["graph"]] true true
                false (SendReturns true []) env_ok state0).2)
  = Some (dump_history ["2"; "1"] "2024-05-02T09:00:00.000000").
Proof. by vm_compute. Qed.

(** ** [filter_papers_by_date] *)

Lemma filter_loop_spec strptime cutoff ps acc :
  match filter_loop strptime cutoff ps acc with
  | None => ∃ p, p ∈ ps ∧ strptime (paper_published p) = None
  | Some filtered =>
      (∀ p, p ∈ ps → is_Some (strptime (paper_published p)))
      ∧ filtered = acc ++ filter (λ p, recent strptime cutoff p) ps
  end.
Proof.
  revert acc. induction ps as [|p ps IH]; intros acc; simpl.
  - split; [by intros p ?%elem_of_nil|]. by rewrite app_nil_r.
  - destruct (strptime (paper_published p)) as [t|] eqn:Ht.
    + assert (recent strptime cutoff p = (cutoff <=? t)%Z) as Hrec
        by (unfold recent; by rewrite Ht).
      assert (∀ acc',
        match filter_loop strptime cutoff ps acc' with
        | None => ∃ q, q ∈ p :: ps ∧ strptime (paper_published q) = None
        | Some filtered =>
            (∀ q, q ∈ p :: ps → is_Some (strptime (paper_published q)))
            ∧ filtered = acc' ++ filter (λ q, recent strptime cutoff q) ps
        end) as IH'.
      { intros acc'. specialize (IH acc').
        destruct (filter_loop strptime cutoff ps acc').
        - destruct IH as [Hall ->]. split; [|done].
          intros q [->|Hq]%elem_of_cons; [by rewrite Ht|by apply Hall].
        - destruct IH as (q & Hq & Hnone). exists q. split; [by right|done]. }
      destruct (cutoff <=? t)%Z.
      * specialize (IH' (acc ++ [p])).
        destruct (filter_loop _ _ _ _); [|done].
        destruct IH' as [? ->]. split; [done|].
        rewrite filter_cons_True by (by rewrite Hrec).
        by rewrite <-app_assoc.
      * specialize (IH' acc). destruct (filter_loop _ _ _ _); [|done].
        destruct IH' as [? ->]. split; [done|].
        rewrite filter_cons_False; [done|]. rewrite Hrec. by intros [].
    + exists p. split; [left|done].
Qed.

Lemma cutoff_some now days c :
  cutoff now days = Some c → c = (now - days * microseconds_per_day)%Z.
Proof.
  unfold cutoff. destruct (max_days <? Z.abs days)%Z; [done|].
  destruct (_ && _); [|done]. by intros [= <-].
Qed.

(** X15.  [filter_papers_by_date] raises when [now] minus [days] days is
    outside the range of [datetime], before any paper is looked at, and
    when the date of some paper, recent or not, cannot be read; otherwise
    it returns, in their order, exactly the papers published at or after
    that instant. *)
Theorem filter_papers_by_date_spec strptime now papers days log :
  match (filter_papers_by_date strptime now papers days log).1 with
  | None =>
      cutoff now days = None
      ∨ ∃ p, p ∈ papers ∧ strptime (paper_published p) = None
  | Some filtered =>
      cutoff now days = Some (now - days * microseconds_per_day)%Z
      ∧ (∀ p, p ∈ papers → is_Some (strptime (paper_published p)))
      ∧ filtered
        = filter (λ p, recent strptime (now - days * microseconds_per_day) p)
            papers
  end.
Proof.
  unfold filter_papers_by_date.
  destruct (cutoff now days) as [c|] eqn:Hc; [|by left].
  apply cutoff_some in Hc as Hc'. subst c.
  pose proof (filter_loop_spec strptime (now - days * microseconds_per_day)
                papers []) as H.
  destruct (filter_loop _ _ _ _); simpl; [|by right].
  by destruct H.
Qed.

(** The largest number of days [timedelta] takes is still too many for a
    date of this era. *)
Example filter_papers_by_date_overflow :
  (filter_papers_by_date strptime0 now0 [paper3] 800000 []).1 = None.
Proof. reflexivity. Qed.

(** X16.  Filtering by date and searching can be done in either order:
    searching the papers [filter_papers_by_date] returns gives the papers
    of the search on all papers that pass the date test. *)
Theorem search_after_date_filter strptime now papers days log0 filtered
    kgs st sa w :
  (filter_papers_by_date strptime now papers days log0).1 = Some filtered →
  (search_papers filtered kgs st sa w).1
  = filter (λ p, recent strptime (now - days * microseconds_per_day) p)
      (search_papers papers kgs st sa w).1.
Proof.
  unfold filter_papers_by_date.
  destruct (cutoff now days) as [c|] eqn:Hc; [|done].
  apply cutoff_some in Hc. subst c.
  pose proof (filter_loop_spec strptime (now - days * microseconds_per_day)
                papers []) as H.
  destruct (filter_loop _ _ _ _) as [filtered'|]; [|done].
  destruct H as [_ ->]. intros [= <-].
  rewrite !search_papers_result, !list_filter_filter.
  apply list_filter_iff. tauto.
Qed.

Lemma search_after_date_filter_witness :
  (filter_papers_by_date strptime0 now0 [paper4; paper3] 1 []).1
  = Some [paper3]
  ∧ (search_papers [paper3] [["graph"]] true true world0).1
    = filter (λ p, recent strptime0 (now0 - 1 * microseconds_per_day) p)
        (search_papers [paper4; paper3] [["graph"]] true true world0).1.
Proof.
  assert ((filter_papers_by_date strptime0 now0 [paper4; paper3] 1 []).1
          = Some [paper3]) as H by (by vm_compute).
  split; [exact H|].
  exact (search_after_date_filter strptime0 now0 [paper4; paper3] 1 []
           [paper3] [["graph"]] true true world0 H).
Defined.

(** ** The papers built from the feed *)

Lemma string_drop_app s t : string_drop (String.length s) (s +:+ t) = t.
Proof. induction s as [|a s IH]; [by destruct t|]. by rewrite append_cons. Qed.

Lemma contains_nil_r sep : sep ≠ "" → contains sep "" = false.
Proof. by destruct sep. Qed.

(** Where the scan cuts, a separator ends. *)
Lemma last_cut_suffix sep skip s r :
  last_cut sep skip s = Some r → ∃ u, s = u +:+ sep +:+ r.
Proof.
  revert skip. induction s as [|c s IH]; intros skip; [done|].
  cbn [last_cut]. destruct skip as [|k].
  - destruct (String.prefix sep (String c s)) eqn:Hpre.
    + apply prefix_spec in Hpre as [v Hv].
      destruct (last_cut sep (String.length sep - 1) s) as [r'|] eqn:Hcut.
      * intros [= <-]. destruct (IH _ Hcut) as [u ->].
        by exists (String c u).
      * intros [= <-]. exists "". rewrite Hv at 2.
        by rewrite string_drop_app, append_nil_l.
    + intros Hcut. destruct (IH _ Hcut) as [u ->]. by exists (String c u).
  - intros Hcut. destruct (IH _ Hcut) as [u ->]. by exists (String c u).
Qed.

(** After the last cut there is no separator left. *)
Lemma last_cut_clean sep skip s :
  sep ≠ "" →
  match last_cut sep skip s with
  | Some r => contains sep r = false
  | None => contains sep (string_drop skip s) = false
  end.
Proof.
  intros Hsep. revert skip. induction s as [|c s IH]; intros skip.
  - simpl. destruct skip; by apply contains_nil_r.
  - cbn [last_cut]. destruct skip as [|k]; [|apply IH].
    destruct (String.prefix sep (String c s)) eqn:Hpre.
    + specialize (IH (String.length sep - 1)).
      destruct (last_cut sep (String.length sep - 1) s); [done|]. simpl.
      destruct sep as [|a sep]; [done|]. simpl in *.
      by rewrite Nat.sub_0_r in IH.
    + specialize (IH 0). destruct (last_cut sep 0 s); [done|].
      cbn [string_drop contains] in *. rewrite Hpre. by destruct s.
Qed.

Lemma last_cut_none sep s : contains sep s = false → last_cut sep 0 s = None.
Proof.
  induction s as [|c s IH]; [done|]. cbn [contains last_cut].
  intros [-> Hs]%orb_false_iff. by apply IH.
Qed.

(** X17.  The identifier of a fetched paper is what follows a [/abs/] in
    the identifier of the feed entry, or the whole of it when it has no
    [/abs/]; in both cases the identifier itself has no [/abs/] inside. *)
Theorem paper_id_of_entry entry :
  let id := paper_id (paper_of_entry entry) in
  (id = entry_id entry ∨ ∃ u, entry_id entry = u +:+ "/abs/" +:+ id)
  ∧ contains "/abs/" id = false
  ∧ (contains "/abs/" (entry_id entry) = false → id = entry_id entry).
Proof.
  simpl. unfold split_last.
  pose proof (last_cut_suffix "/abs/" 0 (entry_id entry)) as Hsuffix.
  pose proof (last_cut_clean "/abs/" 0 (entry_id entry)) as Hclean.
  pose proof (last_cut_none "/abs/" (entry_id entry)) as Hnone.
  destruct (last_cut "/abs/" 0 (entry_id entry)) as [r|]; simpl.
  - split; [right; by apply Hsuffix|]. split; [by apply Hclean|].
    intros Hno. by specialize (Hnone Hno).
  - split; [by left|]. split; [by apply Hclean|done].
Qed.

Lemma contains_char_cons a c s :
  contains (String a "") (String c s)
  = (if ascii_dec a c then true else false) || contains (String a "") s.
Proof. cbn [contains String.prefix]. by destruct (ascii_dec a c), s. Qed.

Lemma replace_char_clean a b s :
  a ≠ b → contains (String a "") (replace_char a b s) = false.
Proof.
  intros Hab. induction s as [|c s IH]; [done|].
  cbn [replace_char]. rewrite contains_char_cons, IH, orb_false_r.
  destruct (Ascii.eqb c a) eqn:Hc.
  - by destruct (ascii_dec a b).
  - apply Ascii.eqb_neq in Hc. by destruct (ascii_dec a c).
Qed.

(** Stripping takes characters away at the two ends only. *)
Lemma lstrip_suffix s : ∃ u, s = u +:+ lstrip s.
Proof.
  induction s as [|c s [u Hu]]; [by exists ""|]. simpl.
  destruct (is_space c); [|by exists ""].
  exists (String c u). by rewrite append_cons, <-Hu.
Qed.

Lemma rstrip_prefix s : ∃ v, s = rstrip s +:+ v.
Proof.
  induction s as [|c s [v Hv]]; [by exists ""|]. simpl.
  destruct (rstrip s) as [|c' t] eqn:Hr.
  - destruct (is_space c); [by eexists|]. exists v.
    by rewrite append_cons, <-Hv.
  - exists v. by rewrite append_cons, <-Hv.
Qed.

Lemma strip_substring s : is_substring (strip s) s.
Proof.
  destruct (lstrip_suffix s) as [u Hu].
  destruct (rstrip_prefix (lstrip s)) as [v Hv].
  exists u, v. unfold strip. by rewrite <-Hv.
Qed.

Lemma lstrip_head s c t : lstrip s = String c t → is_space c = false.
Proof.
  induction s as [|a s IH]; [done|]. simpl.
  destruct (is_space a) eqn:Ha; [done|]. by intros [= <- _].
Qed.

Lemma rstrip_head s c t : rstrip s = String c t → ∃ t', s = String c t'.
Proof.
  destruct s as [|a s]; [done|]. simpl.
  destruct (rstrip s); [destruct (is_space a)|]; intros [= <- _]; by eauto.
Qed.

Lemma rstrip_last s t c : rstrip s = t +:+ String c "" → is_space c = false.
Proof.
  revert t. induction s as [|a s IH]; intros t; simpl.
  - by destruct t.
  - destruct (rstrip s) as [|b r] eqn:Hr.
    + destruct (is_space a) eqn:Ha; [by destruct t|].
      destruct t as [|? [|? ?]]; intros [=]; by subst.
    + destruct t as [|a' t]; [by intros [=]|].
      rewrite append_cons. intros [= _ Ht]. by apply (IH t).
Qed.

(** What [replace('\n', ' ').strip()] leaves. *)
Lemma cleaned_text s : tidy (strip (replace_char newline " " s)).
Proof.
  split; [|split].
  - destruct (contains _ _) eqn:Hc; [|done].
    apply contains_spec in Hc.
    pose proof (strip_substring (replace_char newline " " s)) as Hsub.
    pose proof (is_substring_trans _ _ _ Hc Hsub) as Hnl.
    apply contains_spec in Hnl. by rewrite replace_char_clean in Hnl.
  - intros c t' Ht. apply rstrip_head in Ht as [t'' Ht].
    by apply lstrip_head in Ht.
  - intros t' c Ht. by apply rstrip_last in Ht.
Qed.

(** X18.  The title and the abstract of a fetched paper hold no line break
    and neither begin nor end with a white-space character. *)
Theorem paper_text_of_entry entry :
  tidy (paper_title (paper_of_entry entry))
  ∧ tidy (paper_abstract (paper_of_entry entry)).
Proof. split; apply cleaned_text. Qed.

(** ** The history document can be read in one way only *)

Lemma decode_encode_char c r : decode_char (encode_char c +:+ r) = Some (c, r).
Proof. by destruct c as [[] [] [] [] [] [] [] []]. Qed.

Lemma encode_chars_inj x y r r' :
  encode_chars x +:+ String dquote r = encode_chars y +:+ String dquote r' →
  x = y ∧ r = r'.
Proof.
  revert y. induction x as [|c x IH]; intros [|d y]; cbn [encode_chars];
    rewrite ?append_assoc, ?append_nil_l; intros H.
  - by injection H as ->.
  - apply (f_equal decode_char) in H. by rewrite decode_encode_char in H.
  - apply (f_equal decode_char) in H. by rewrite decode_encode_char in H.
  - apply (f_equal decode_char) in H. rewrite !decode_encode_char in H.
    injection H as -> H. by destruct (IH _ H) as [-> ->].
Qed.

Lemma encode_string_inj x y r r' :
  encode_string x +:+ r = encode_string y +:+ r' → x = y ∧ r = r'.
Proof.
  unfold encode_string.
  rewrite !append_assoc, !append_cons, !append_nil_l.
  intros [= H]. by apply encode_chars_inj.
Qed.

Lemma append_comma s : "," +:+ s = String "," s.
Proof. reflexivity. Qed.

Lemma encode_items_inj l1 l2 r1 r2 :
  l1 ≠ [] → l2 ≠ [] →
  encode_items l1 +:+ String newline r1 = encode_items l2 +:+ String newline r2 →
  l1 = l2 ∧ r1 = r2.
Proof.
  revert l2. induction l1 as [|x l1 IH]; intros [|y l2]; try done.
  intros _ _. destruct l1 as [|x' l1], l2 as [|y' l2];
    rewrite ?encode_items_cons, ?append_assoc; cbn [encode_items]; intros H;
    apply encode_string_inj in H as [-> H].
  - by injection H as ->.
  - by rewrite append_comma in H.
  - by rewrite append_comma in H.
  - apply (inj (String.append ",")), (inj (String.append (nl "    "))) in H.
    by destruct (IH (y' :: l2) ltac:(done) ltac:(done) H) as [-> ->].
Qed.

Lemma dump_tail_inj t1 t2 : dump_tail t1 = dump_tail t2 → t1 = t2.
Proof.
  unfold dump_tail. intros H.
  do 4 apply (inj (String.append _)) in H.
  by apply encode_string_inj in H as [-> _].
Qed.

Lemma dump_history_eq items last_updated :
  dump_history items last_updated
  = "{" +:+ nl "  " +:+ encode_string "sent_papers" +:+ ": "
    +:+ encode_list items +:+ dump_tail last_updated.
Proof. reflexivity. Qed.

Lemma dump_history_inj l1 l2 t1 t2 :
  dump_history l1 t1 = dump_history l2 t2 → l1 = l2 ∧ t1 = t2.
Proof.
  rewrite !dump_history_eq. intros H.
  do 4 apply (inj (String.append _)) in H.
  destruct l1 as [|x l1], l2 as [|y l2]; cbn [encode_list] in H.
  - apply (inj (String.append "[]")) in H. by apply dump_tail_inj in H as ->.
  - rewrite !append_assoc in H. discriminate.
  - rewrite !append_assoc in H. discriminate.
  - rewrite !append_assoc in H.
    do 2 apply (inj (String.append _)) in H.
    change (nl "  " +:+ ?z) with (String newline ("  " +:+ z)) in H.
    apply encode_items_inj in H as [-> H]; [|done..].
    apply (inj (String.append _)), (inj (String.append _)) in H.
    by apply dump_tail_inj in H as ->.
Qed.

(** X19.  The history document tells the seen set and the timestamp: two
    calls of [json.dump] at lines 45-51 that write the same text were given
    the same set and the same timestamp. *)
Theorem dump_history_tells (sent1 sent2 : gset string) t1 t2 :
  dump_history (elements sent1) t1 = dump_history (elements sent2) t2 →
  sent1 = sent2 ∧ t1 = t2.
Proof.
  intros [Hsent ->]%dump_history_inj. split; [|done].
  by rewrite <-(list_to_set_elements_L sent1), Hsent, list_to_set_elements_L.
Qed.

Lemma dump_history_tells_witness :
  dump_history (elements ({["a"; "b"]} : gset string)) "t"
  = dump_history (elements ({["b"; "a"]} : gset string)) "t"
  ∧ ({["a"; "b"]} : gset string) = {["b"; "a"]} ∧ "t" = "t".
Proof.
  assert (dump_history (elements ({["a"; "b"]} : gset string)) "t"
          = dump_history (elements ({["b"; "a"]} : gset string)) "t") as H
    by (by vm_compute).
  split; [exact H|].
  exact (dump_history_tells {["a"; "b"]} {["b"; "a"]} "t" "t" H).
Defined.

(** ** A feed that answers with an error *)

Lemma fetch_with_error fetching fetched categories max_results parse log
    status :
  feed_status (parse (query_url categories max_results)) = Some status →
  status ≠ 200%Z →
  (fetch_with fetching fetched categories max_results parse log).1 = [].
Proof.
  intros Hstatus Hne. unfold fetch_with. rewrite Hstatus.
  by rewrite bool_decide_eq_true_2.
Qed.

(** X20.  When the feed answers with a status other than 200, both
    [fetch_papers] and [fetch_papers_from_rss] return no paper, whatever
    entries the answer holds; filtering by date, when its cutoff can be
    computed, keeps it so, and the rest of [main] then finds nothing to
    send, exits with 0 and leaves the seen set and the history file as
    they were. *)
Theorem fetch_error_run_idle categories max_results parse log status
    kgs st sa dry_run send env s :
  feed_status (parse (query_url categories max_results)) = Some status →
  status ≠ 200%Z →
  ∀ papers,
    papers = (fetch_papers categories max_results parse log).1
    ∨ papers = (fetch_papers_from_rss categories max_results parse log).1 →
    papers = []
    ∧ (∀ strptime now days log',
         is_Some (cutoff now days) →
         (filter_papers_by_date strptime now papers days log').1 = Some [])
    ∧ let '(code, s') :=
        main_search_and_notify papers kgs st sa dry_run send env s in
      code = 0%Z ∧ st_sent s' = st_sent s ∧ st_disk s' = st_disk s.
Proof.
  intros Hstatus Hne papers Hpapers.
  assert (papers = []) as ->.
  { destruct Hpapers as [-> | ->]; by eapply fetch_with_error. }
  split; [done|]. split; [|done].
  intros strptime now days log' [c Hc]. unfold filter_papers_by_date.
  by rewrite Hc.
Qed.

Lemma fetch_error_run_idle_witness :
  feed_status
    ((λ _, {| feed_status := Some 503%Z; feed_entries := [entry1] |})
       (query_url ["cs.LG"] 50)) = Some 503%Z
  ∧ 503%Z ≠ 200%Z
  ∧ ∀ papers,
      papers
      = (fetch_papers ["cs.LG"] 50
           (λ _, {| feed_status := Some 503%Z; feed_entries := [entry1] |})
           []).1
      ∨ papers
        = (fetch_papers_from_rss ["cs.LG"] 50
             (λ _, {| feed_status := Some 503%Z; feed_entries := [entry1] |})
             []).1 →
      papers = []
      ∧ (∀ strptime now days log',
           is_Some (cutoff now days) →
           (filter_papers_by_date strptime now papers days log').1 = Some [])
      ∧ let '(code, s') :=
          main_search_and_notify papers [[]] true true false
            (SendReturns true []) env_ok state0 in
        code = 0%Z ∧ st_sent s' = st_sent state0
        ∧ st_disk s' = st_disk state0.
Proof.
  assert (503%Z ≠ 200%Z) as H by discriminate.
  split; [reflexivity|]. split; [exact H|].
  exact (fetch_error_run_idle ["cs.LG"] 50
           (λ _, {| feed_status := Some 503%Z; feed_entries := [entry1] |})
           [] 503 [[]] true true false (SendReturns true []) env_ok state0
           eq_refl H).
Defined.
